(** * HospitalInsights: the ingestion, normalisation and join pipeline

    A shallow embedding of [data_processor.py] (class [DataProcessor]),
    of [validate_data] in [utils.py] and of [generate_summary_report] in
    [app.py], together with the properties of the pipeline.

    A pandas DataFrame is an ordered list of column labels and a list of
    rows; a cell is a null, an integer, a finite float given by its rational
    value, or a text (ASCII).  Boolean and date cells are left out, and the
    column access by label follows the first column with that label, as
    pandas does when labels are distinct.  Messages sent to [st.info] are
    collected in a log, exceptions are values of [error]. *)

From Stdlib Require Import Ascii QArith Qminmax.
From stdpp Require Import gmap strings list fin_maps pretty.

Local Open Scope Z_scope.

(** ** Python text operations on ASCII text *)

Module PyStr.

Definition code (c : ascii) : nat := nat_of_ascii c.

(** [str.upper] and [str.lower], letter by letter. *)
Definition upper_char (c : ascii) : ascii :=
  if ((97 <=? code c) && (code c <=? 122))%nat
  then ascii_of_nat (code c - 32) else c.

Definition lower_char (c : ascii) : ascii :=
  if ((65 <=? code c) && (code c <=? 90))%nat
  then ascii_of_nat (code c + 32) else c.

Fixpoint upper (s : string) : string :=
  match s with
  | EmptyString => EmptyString
  | String c r => String (upper_char c) (upper r)
  end.

Fixpoint lower (s : string) : string :=
  match s with
  | EmptyString => EmptyString
  | String c r => String (lower_char c) (lower r)
  end.

(** [str.isspace] on one character: tab to carriage return, the four
    separators 28..31 and the blank. *)
Definition isspace (c : ascii) : bool :=
  ((9 <=? code c) && (code c <=? 13) || (28 <=? code c) && (code c <=? 32))%nat.

Definition is_empty (s : string) : bool :=
  match s with EmptyString => true | String _ _ => false end.

Fixpoint lstrip (s : string) : string :=
  match s with
  | EmptyString => EmptyString
  | String c r => if isspace c then lstrip r else s
  end.

Fixpoint rstrip (s : string) : string :=
  match s with
  | EmptyString => EmptyString
  | String c r =>
      let r' := rstrip r in
      if isspace c && is_empty r' then EmptyString else String c r'
  end.

(** [str.strip()] without argument. *)
Definition strip (s : string) : string := lstrip (rstrip s).

(** [sub in s] *)
Fixpoint contains (sub s : string) : bool :=
  String.prefix sub s ||
  match s with
  | EmptyString => false
  | String _ r => contains sub r
  end.

(** [s.endswith(suf)] *)
Fixpoint endswith (suf s : string) : bool :=
  String.eqb s suf ||
  match s with
  | EmptyString => false
  | String _ r => endswith suf r
  end.

End PyStr.

(** ** Cells, columns and frames *)

(** A cell of a sheet.  [CNull] stands for [NaN]/[None]; a float carries its
    numeric value. *)
Inductive cell :=
| CNull
| CInt (z : Z)
| CFloat (q : Q)
| CStr (s : string).

Definition isna (c : cell) : bool :=
  match c with CNull => true | _ => false end.

Definition notna (c : cell) : bool := negb (isna c).

(** Numeric value of a numeric cell. *)
Definition num_of_cell (c : cell) : option Q :=
  match c with
  | CInt z => Some (inject_Z z)
  | CFloat q => Some q
  | _ => None
  end.

(** Cell equality as [duplicated] and hashing see it: nulls are alike, the
    integer 1 and the float 1.0 are alike. *)
Definition cell_eqb (a b : cell) : bool :=
  match a, b with
  | CNull, CNull => true
  | CStr s, CStr t => String.eqb s t
  | CNull, _ | _, CNull | CStr _, _ | _, CStr _ => false
  | _, _ =>
      match num_of_cell a, num_of_cell b with
      | Some x, Some y => Qeq_bool x y
      | _, _ => false
      end
  end.

Record DataFrame := mkFrame {
  columns : list string;
  rows : list (list cell)
}.

(** [len(df)] *)
Definition len (df : DataFrame) : nat := length (rows df).

(** [df.empty]: one of the two axes has length zero. *)
Definition empty (df : DataFrame) : bool :=
  match rows df, columns df with
  | [], _ | _, [] => true
  | _, _ => false
  end.

(** Position of the first column carrying label [name]. *)
Fixpoint col_index (name : string) (cols : list string) : option nat :=
  match cols with
  | [] => None
  | c :: r => if String.eqb c name then Some 0%nat else S <$> col_index name r
  end.

(** [name in df.columns] *)
Definition has_column (name : string) (df : DataFrame) : bool :=
  bool_decide (name ∈ columns df).

(** The cell of a row at a position; a short row reads as null. *)
Definition cell_at (i : nat) (r : list cell) : cell := default CNull (r !! i).

(** [df[name]] as the list of its cells, top to bottom. *)
Definition column (name : string) (df : DataFrame) : option (list cell) :=
  i ← col_index name (columns df); Some (cell_at i <$> rows df).

(** [df[name] = values], the assigned series being aligned with the rows. *)
Fixpoint assign_rows (i : nat) (rs : list (list cell)) (vs : list cell)
  : list (list cell) :=
  match rs, vs with
  | r :: rs', v :: vs' => <[i := v]> r :: assign_rows i rs' vs'
  | _, _ => rs
  end.

Definition set_column (name : string) (vs : list cell) (df : DataFrame) : DataFrame :=
  match col_index name (columns df) with
  | Some i => mkFrame (columns df) (assign_rows i (rows df) vs)
  | None => df
  end.

(** [df.rename(columns={old: new})] *)
Definition rename (old new : string) (df : DataFrame) : DataFrame :=
  mkFrame ((λ c, if String.eqb c old then new else c) <$> columns df) (rows df).

(** [df.dropna(subset=names)]: a row goes when one of its cells under a
    label of [names] is null. *)
Definition dropna_subset (names : list string) (df : DataFrame) : DataFrame :=
  mkFrame (columns df)
    (List.filter
       (λ r, forallb (λ cv, implb (bool_decide (cv.1 ∈ names)) (notna cv.2))
                     (zip (columns df) r))
       (rows df)).

(** Every row has one cell per column. *)
Definition rectangular (df : DataFrame) : bool :=
  forallb (λ r, (length r =? length (columns df))%nat) (rows df).

(** [df[name] = f(df[name])] for an operation [f] that works cell by cell. *)
Definition apply_column (name : string) (f : cell → cell) (df : DataFrame) : DataFrame :=
  match column name df with
  | Some vs => set_column name (f <$> vs) df
  | None => df
  end.

(** [series.str.strip()], [series.str.upper()]: text cells are rewritten,
    any other cell gives a null. *)
Definition str_strip (c : cell) : cell :=
  match c with CStr s => CStr (PyStr.strip s) | _ => CNull end.

Definition str_upper (c : cell) : cell :=
  match c with CStr s => CStr (PyStr.upper s) | _ => CNull end.

(** [series.map(d)] for a dict [d]: a value that is no key gives a null. *)
Definition map_dict (d : gmap string string) (c : cell) : cell :=
  match c with
  | CStr s => match d !! s with Some v => CStr v | None => CNull end
  | _ => CNull
  end.

(** [series.fillna(other)], cell by cell. *)
Definition fillna (c other : cell) : cell := if isna c then other else c.

(** The distinct values of a series, in order of first appearance. *)
Fixpoint unique (l : list cell) : list cell :=
  match l with
  | [] => []
  | x :: r => x :: List.filter (λ y, negb (cell_eqb x y)) (unique r)
  end.

Definition count_cell (v : cell) (l : list cell) : nat :=
  length (List.filter (cell_eqb v) l).

(** [series.value_counts()]: each non-null value with its number of
    occurrences.  The entries are listed by first appearance; the ordering
    by decreasing count is not modelled. *)
Definition value_counts (l : list cell) : list (cell * nat) :=
  let vals := List.filter notna l in
  (λ v, (v, count_cell v vals)) <$> unique vals.

(** The rows a left join makes of the left row [l]: one per row of [right]
    whose key cell (at [j]) equals the key cell of [l] (at [i]), the key
    cell of the right row being left out; one filled up with [width] nulls
    when no row of [right] has that key. *)
Definition join_row (i j : nat) (right : list (list cell)) (width : nat)
    (l : list cell) : list (list cell) :=
  match List.filter (λ r, cell_eqb (cell_at i l) (cell_at j r)) right with
  | [] => [l ++ replicate width CNull]
  | ms => (λ r, l ++ delete j r) <$> ms
  end.

(** [left.merge(right, on=key, how='left', suffixes=(lsuffix, rsuffix))]:
    the rows of [left] in order, each joined with [right]; a label outside
    the key that both sides carry gets the suffix of its side.  [None] when
    a side lacks the key. *)
Definition merge_left (left right : DataFrame) (key lsuffix rsuffix : string)
  : option DataFrame :=
  i ← col_index key (columns left);
  j ← col_index key (columns right);
  let rcols := delete j (columns right) in
  let overlap c := bool_decide (c ∈ columns left) && bool_decide (c ∈ rcols) in
  let lnames := (λ c, if overlap c then c +:+ lsuffix else c) <$> columns left in
  let rnames := (λ c, if overlap c then c +:+ rsuffix else c) <$> rcols in
  Some (mkFrame (lnames ++ rnames)
          (concat (join_row i j (rows right) (length rcols) <$> rows left))).

(** ** Exceptions and the [st.info] log *)

Inductive error :=
| PatientSheetNotFound
| DiagnosisSheetNotFound
| PatientMissingRegistryId
| DiagnosisMissingRegistryId
| NoMatchingRecords
| KeyError (label : string)
| ErrorMergingData (e : error)
| ErrorProcessingExcelFile (e : error).

Inductive info_msg :=
| InfoAgeColumn
| InfoAgeColumnRenamed (col : string)
| InfoGenderMapping (found : list (cell * nat))
| InfoGenderColumnRenamed (col : string)
| InfoMergeCompleted (matched total : nat).

(** A computation either raises or returns, and leaves the messages it sent
    to [st.info]. *)
Definition M (A : Type) : Type := (error + A) * list info_msg.

Definition ret {A} (a : A) : M A := (inr a, []).
Definition raise {A} (e : error) : M A := (inl e, []).
Definition st_info (m : info_msg) : M unit := (inr tt, [m]).

Definition bind {A B} (m : M A) (f : A → M B) : M B :=
  match m with
  | (inl e, l) => (inl e, l)
  | (inr a, l) => let r := f a in (r.1, l ++ r.2)
  end.

(** [try: m except Exception as e: raise handler(e)] *)
Definition try_except {A} (m : M A) (handler : error → error) : M A :=
  match m with
  | (inl e, l) => (inl (handler e), l)
  | (inr a, l) => (inr a, l)
  end.

Notation "'let*' x ':=' m 'in' k" := (bind m (λ x, k))
  (at level 10, x pattern, m at level 100, k at level 200).

(** ** data_processor.py: class DataProcessor *)

Module DataProcessor.

Import PyStr.

Section Externals.

(** Three library routines are taken as they come: Python's [repr] of a
    float that is no whole number below 1e16, the tokenizer with which
    [pd.to_numeric] reads a finite number from a text, and
    [pd.to_datetime] on a whole column ([None] when it raises). *)
Variable repr_float : Q → string.
Variable parse_number : string → option Q.
Variable to_datetime : list cell → option (list cell).

(** [str(x)] for the value of a cell. *)
Definition is_whole (q : Q) : bool := Qnum q mod Z.pos (Qden q) =? 0.

Definition str_of_float (q : Q) : string :=
  let z := Qnum q / Z.pos (Qden q) in
  if is_whole q && (Z.abs z <? 10 ^ 16)
  then pretty z +:+ ".0" else repr_float q.

Definition py_str (c : cell) : string :=
  match c with
  | CNull => "nan"
  | CInt z => pretty z
  | CFloat q => str_of_float q
  | CStr s => s
  end.

(** [series.astype(str)] *)
Definition astype_str (c : cell) : cell := CStr (py_str c).

(** [pd.to_numeric(series, errors='coerce')] *)
Definition to_numeric (c : cell) : cell :=
  match c with
  | CNull => CNull
  | CInt z => CInt z
  | CFloat q => CFloat q
  | CStr s => match parse_number s with Some q => CFloat q | None => CNull end
  end.

(** The inner loop of [_find_sheet]: does a keyword occur in the sheet
    name, both in lower case? *)
Fixpoint keyword_in_sheet (sheet : string) (keywords : list string) : bool :=
  match keywords with
  | [] => false
  | keyword :: rest =>
      if contains (lower keyword) (lower sheet) then true
      else keyword_in_sheet sheet rest
  end.

Fixpoint find_sheet (sheet_names keywords : list string) : option string :=
  match sheet_names with
  | [] => None
  | sheet :: rest =>
      if keyword_in_sheet sheet keywords then Some sheet
      else find_sheet rest keywords
  end.

Definition select_by_mask {A} (mask : list bool) (l : list A) : list A :=
  omap (λ bx : bool * A, if bx.1 then Some bx.2 else None) (zip mask l).

Definition registry_keywords : list string :=
  ["REGISTRY"; "ID"; "PATIENT_ID"; "PATIENTID"].

Definition clean_dataframe (df : DataFrame) : DataFrame :=
  (* df.dropna(how='all').dropna(axis=1, how='all') *)
  let rs := List.filter (existsb notna) (rows df) in
  let keep := (λ j, existsb (λ r, notna (cell_at j r)) rs)
                <$> seq 0 (length (columns df)) in
  let df := mkFrame (select_by_mask keep (columns df)) (select_by_mask keep <$> rs) in
  let df := mkFrame ((λ col, upper (strip col)) <$> columns df) (rows df) in
  let registry_columns :=
    List.filter (λ col, existsb (λ keyword, contains keyword (upper col)) registry_keywords)
                (columns df) in
  match registry_columns with
  | first :: _ =>
      if negb (has_column "REGISTRY ID" df) then rename first "REGISTRY ID" df else df
  | [] => df
  end.

Definition select_age_column (cols : list string) : option string :=
  if bool_decide ("AGE" ∈ cols) then Some "AGE"
  else
    let age_columns :=
      List.filter (λ col, String.eqb (upper col) "AGE" || endswith " AGE" (upper col)) cols in
    let age_columns :=
      match age_columns with
      | [] => List.filter (λ col, contains "AGE" (upper col)
                                   && negb (contains "TRIAGE" (upper col))) cols
      | _ => age_columns
      end in
    head age_columns.

Definition age_out_of_range (c : cell) : bool :=
  match num_of_cell c with
  | Some x => negb (Qle_bool 0 x) || negb (Qle_bool x 150)
  | None => false
  end.

Definition clear_out_of_range (c : cell) : cell :=
  if age_out_of_range c then CNull else c.

(** What the two assignments of [_process_age_column] make of one cell. *)
Definition normalize_age (c : cell) : cell := clear_out_of_range (to_numeric c).

Definition process_age_column (df : DataFrame) : M DataFrame :=
  match select_age_column (columns df) with
  | None => ret df
  | Some age_col =>
      let df := apply_column age_col to_numeric df in
      let df := apply_column age_col clear_out_of_range df in
      if negb (String.eqb age_col "AGE") then
        let* _ := st_info (InfoAgeColumnRenamed age_col) in
        ret (rename age_col "AGE" df)
      else
        let* _ := st_info InfoAgeColumn in
        ret df
  end.

Definition gender_mapping : gmap string string :=
  list_to_map
    [("1", "MALE"); ("1.0", "MALE");
     ("2", "FEMALE"); ("2.0", "FEMALE");
     ("3", "TRANSGENDER"); ("3.0", "TRANSGENDER");
     ("M", "MALE"); ("MALE", "MALE"); ("MAN", "MALE");
     ("F", "FEMALE"); ("FEMALE", "FEMALE"); ("WOMAN", "FEMALE");
     ("T", "TRANSGENDER"); ("TRANSGENDER", "TRANSGENDER"); ("TRANS", "TRANSGENDER");
     ("O", "OTHER"); ("OTHER", "OTHER"); ("OTHERS", "OTHER")].

Definition to_stripped_text (c : cell) : cell := str_strip (astype_str c).

Definition apply_gender_mapping (c : cell) : cell :=
  fillna (map_dict gender_mapping (str_upper c)) (str_upper c).

(** What the two assignments of [_process_gender_column] make of one
    cell. *)
Definition normalize_gender (c : cell) : cell :=
  apply_gender_mapping (to_stripped_text c).

Definition process_gender_column (df : DataFrame) : M DataFrame :=
  let gender_columns :=
    List.filter (λ col, existsb (λ keyword, contains keyword (upper col)) ["GENDER"; "SEX"])
                (columns df) in
  match gender_columns with
  | [] => ret df
  | gender_col :: _ =>
      let df := apply_column gender_col to_stripped_text df in
      let df := apply_column gender_col apply_gender_mapping df in
      let unique_values := value_counts (default [] (column gender_col df)) in
      let* _ := st_info (InfoGenderMapping unique_values) in
      if negb (String.eqb gender_col "GENDER") then
        let* _ := st_info (InfoGenderColumnRenamed gender_col) in
        ret (rename gender_col "GENDER" df)
      else ret df
  end.

Definition date_keywords : list string :=
  ["DATE"; "TIME"; "CREATED"; "UPDATED"; "ADMISSION"; "DISCHARGE"].

Definition process_date_columns (df : DataFrame) : DataFrame :=
  let date_columns :=
    List.filter (λ col, existsb (λ keyword, contains keyword (upper col)) date_keywords)
                (columns df) in
  foldl (λ df col,
           match column col df with
           | Some vs =>
               match to_datetime vs with
               | Some vs' => set_column col vs' df
               | None => df
               end
           | None => df
           end) df date_columns.

Definition nan_text_to_null (c : cell) : cell :=
  if cell_eqb c (CStr "NAN") then CNull else c.

Definition process_diagnosis_columns (df : DataFrame) : DataFrame :=
  let diagnosis_columns :=
    List.filter (λ col, contains "DIAGNOSIS" (upper col) || contains "CONDITION" (upper col))
                (columns df) in
  foldl (λ df col,
           let df := apply_column col (λ c, str_upper (str_strip (astype_str c))) df in
           apply_column col nan_text_to_null df) df diagnosis_columns.

Definition validate_patient_data (df : DataFrame) : M DataFrame :=
  if negb (has_column "REGISTRY ID" df) then raise PatientMissingRegistryId
  else
    let df := dropna_subset ["REGISTRY ID"] df in
    let df := apply_column "REGISTRY ID" astype_str df in
    let* df := process_age_column df in
    let* df := process_gender_column df in
    ret (process_date_columns df).

Definition validate_diagnosis_data (df : DataFrame) : M DataFrame :=
  if negb (has_column "REGISTRY ID" df) then raise DiagnosisMissingRegistryId
  else
    let df := dropna_subset ["REGISTRY ID"] df in
    let df := apply_column "REGISTRY ID" astype_str df in
    let df := process_date_columns df in
    ret (process_diagnosis_columns df).

Definition merge_data (patient_data diagnosis_data : DataFrame) : M DataFrame :=
  try_except
    (match merge_left diagnosis_data patient_data "REGISTRY ID" "_DIAG" "_PATIENT" with
     | None => raise (KeyError "REGISTRY ID")
     | Some merged_data =>
         if empty merged_data then raise NoMatchingRecords
         else
           let total_diagnoses := len diagnosis_data in
           let matched_diagnoses :=
             len (dropna_subset (List.filter (endswith "_PATIENT") (columns merged_data))
                                merged_data) in
           let* _ := st_info (InfoMergeCompleted matched_diagnoses total_diagnoses) in
           ret merged_data
     end)
    ErrorMergingData.

(** A workbook: its sheets in order, each with its name. *)
Definition workbook : Type := list (string * DataFrame).

Definition read_excel (wb : workbook) (sheet_name : string) : option DataFrame :=
  snd <$> List.find (λ sh, String.eqb sh.1 sheet_name) wb.

(** Python's [not x] for an optional text. *)
Definition is_falsy (x : option string) : bool :=
  match x with None => true | Some s => is_empty s end.

Definition patient_keywords : list string :=
  ["patient"; "patients"; "patient_details"].
Definition diagnosis_keywords : list string :=
  ["diagnosis"; "diagnoses"; "diagnosis_details"; "diag"].

Definition process_excel_file (wb : workbook)
  : M (DataFrame * DataFrame * DataFrame) :=
  try_except
    (let sheet_names := fst <$> wb in
     let patient_sheet := find_sheet sheet_names patient_keywords in
     let diagnosis_sheet := find_sheet sheet_names diagnosis_keywords in
     if is_falsy patient_sheet then raise PatientSheetNotFound
     else if is_falsy diagnosis_sheet then raise DiagnosisSheetNotFound
     else
       match patient_sheet ≫= read_excel wb, diagnosis_sheet ≫= read_excel wb with
       | Some patient_data, Some diagnosis_data =>
           let patient_data := clean_dataframe patient_data in
           let diagnosis_data := clean_dataframe diagnosis_data in
           let* patient_data := validate_patient_data patient_data in
           let* diagnosis_data := validate_diagnosis_data diagnosis_data in
           let* merged_data := merge_data patient_data diagnosis_data in
           ret (patient_data, diagnosis_data, merged_data)
       | _, _ => raise (KeyError "sheet_name")
       end)
    ErrorProcessingExcelFile.

End Externals.

End DataProcessor.

(** ** utils.py: validate_data *)

Module Utils.

Inductive dtype := Int64 | Float64 | Object.

(** The type pandas gives a column with these cells: integers only,
    numbers and nulls, or anything else. *)
Definition dtype_of (vs : list cell) : dtype :=
  if forallb (λ c, match c with CInt _ => true | _ => false end) vs then Int64
  else if forallb (λ c, match c with CStr _ => false | _ => true end) vs then Float64
  else Object.

Definition row_eqb (r1 r2 : list cell) : bool :=
  (length r1 =? length r2)%nat && forallb (λ ab, cell_eqb ab.1 ab.2) (zip r1 r2).

(** [duplicated()]: an entry is marked when an equal one stands before it. *)
Fixpoint duplicated_from {A} (eqb : A → A → bool) (seen l : list A) : list bool :=
  match l with
  | [] => []
  | x :: r => existsb (eqb x) seen :: duplicated_from eqb (seen ++ [x]) r
  end.

Definition duplicated {A} (eqb : A → A → bool) (l : list A) : list bool :=
  duplicated_from eqb [] l.

Definition count_true (l : list bool) : nat := length (List.filter id l).

Inductive validation_error :=
| DataFrameIsEmpty
| MissingRequiredColumns (cols : list string).

Inductive validation_warning :=
| DuplicateRegistryIds (n : nat).

Inductive info_value :=
| InfoCount (n : nat)
| InfoTypes (types : gmap string dtype).

Record ValidationResults := mkResults {
  is_valid : bool;
  errors : list validation_error;
  warnings : list validation_warning;
  info : gmap string info_value
}.

(** [df.dtypes.to_dict()] *)
Definition dtypes (df : DataFrame) : gmap string dtype :=
  foldl (λ m jc, <[jc.2 := dtype_of (cell_at jc.1 <$> rows df)]> m) ∅
        (zip (seq 0 (length (columns df))) (columns df)).

Definition validate_data (df : DataFrame) : ValidationResults :=
  let validation_results := mkResults true [] [] ∅ in
  if empty df then
    mkResults false (errors validation_results ++ [DataFrameIsEmpty])
              (warnings validation_results) (info validation_results)
  else
    let required_columns := ["REGISTRY ID"] in
    let missing_columns :=
      List.filter (λ col, negb (has_column col df)) required_columns in
    let validation_results :=
      match missing_columns with
      | [] => validation_results
      | _ => mkResults false
               (errors validation_results ++ [MissingRequiredColumns missing_columns])
               (warnings validation_results) (info validation_results)
      end in
    let validation_results :=
      if has_column "REGISTRY ID" df then
        let duplicate_ids :=
          count_true (duplicated cell_eqb (default [] (column "REGISTRY ID" df))) in
        if (0 <? duplicate_ids)%nat then
          mkResults (is_valid validation_results) (errors validation_results)
            (warnings validation_results ++ [DuplicateRegistryIds duplicate_ids])
            (info validation_results)
        else validation_results
      else validation_results in
    let info :=
      <["column_types" := InfoTypes (dtypes df)]>
      (<["duplicate_rows" := InfoCount (count_true (duplicated row_eqb (rows df)))]>
      (<["missing_values" := InfoCount (length (List.filter isna (concat (rows df))))]>
      (<["total_columns" := InfoCount (length (columns df))]>
      (<["total_rows" := InfoCount (len df)]> (info validation_results))))) in
    mkResults (is_valid validation_results) (errors validation_results)
              (warnings validation_results) info.

End Utils.

(** ** app.py: generate_summary_report *)

Module App.

Inductive report_error :=
| ZeroDivisionError
| ReportKeyError (label : string)
| TypeError.

(** [value.first()] of a group: its first cell that is no null. *)
Definition first_valid (l : list cell) : cell :=
  default CNull (head (List.filter notna l)).

(** [df.groupby(key)[col].first()]: one entry per distinct non-null key.
    The groups are listed by first appearance; pandas lists them by
    sorted key, which changes the order of the entries only. *)
Definition groupby_first (key col : string) (df : DataFrame)
  : option (list (cell * cell)) :=
  i ← col_index key (columns df);
  j ← col_index col (columns df);
  let keys := unique (List.filter notna (cell_at i <$> rows df)) in
  Some ((λ k, (k, first_valid
                    (cell_at j <$> List.filter (λ r, cell_eqb k (cell_at i r)) (rows df))))
          <$> keys).

Definition Qsum (l : list Q) : Q := foldr Qplus 0%Q l.

(** [series.mean()], [series.min()], [series.max()] skip the nulls and
    give no value on a series without any. *)
Definition mean (l : list Q) : option Q :=
  match l with
  | [] => None
  | _ => Some (Qsum l / inject_Z (Z.of_nat (length l)))%Q
  end.

Definition minimum (l : list Q) : option Q :=
  match l with [] => None | x :: r => Some (foldl Qmin x r) end.

Definition maximum (l : list Q) : option Q :=
  match l with [] => None | x :: r => Some (foldl Qmax x r) end.

Definition Qnat (n : nat) : Q := inject_Z (Z.of_nat n).

Record age_stats := mkAgeStats {
  average_age : option Q;
  min_age : option Q;
  max_age : option Q
}.

(** The numbers the report prints; the layout of the text, and the list of
    the ten most frequent diagnoses, are left out. *)
Record SummaryReport := mkReport {
  total_patients : nat;
  total_diagnoses : nat;
  merged_records : nat;
  average_diagnoses_per_patient : Q;
  gender_distribution : option (list (cell * nat * Q));
  age_statistics : option age_stats
}.

Definition is_text (c : cell) : bool :=
  match c with CStr _ => true | _ => false end.

Definition gender_section (merged_data patient_data : DataFrame)
  : report_error + option (list (cell * nat * Q)) :=
  if has_column "GENDER" merged_data then
    match groupby_first "REGISTRY ID" "GENDER" merged_data with
    | None => inl (ReportKeyError "REGISTRY ID")
    | Some firsts =>
        let gender_counts := value_counts (snd <$> firsts) in
        inr (Some ((λ gc : cell * nat,
                      (gc.1, gc.2, (Qnat gc.2 / Qnat (len patient_data) * 100)%Q))
                     <$> gender_counts))
    end
  else inr None.

(** [ages.mean()] raises on a series that holds a text. *)
Definition age_section (merged_data : DataFrame) : report_error + option age_stats :=
  if has_column "AGE" merged_data then
    match groupby_first "REGISTRY ID" "AGE" merged_data with
    | None => inl (ReportKeyError "REGISTRY ID")
    | Some firsts =>
        let ages := snd <$> firsts in
        if existsb is_text ages then inl TypeError
        else
          let values := omap num_of_cell ages in
          inr (Some (mkAgeStats (mean values) (minimum values) (maximum values)))
    end
  else inr None.

Definition generate_summary_report (merged_data patient_data diagnosis_data : DataFrame)
  : report_error + SummaryReport :=
  if (len patient_data =? 0)%nat then inl ZeroDivisionError
  else
    match gender_section merged_data patient_data with
    | inl e => inl e
    | inr genders =>
        match age_section merged_data with
        | inl e => inl e
        | inr ages =>
            inr (mkReport (len patient_data) (len diagnosis_data) (len merged_data)
                   (Qnat (len diagnosis_data) / Qnat (len patient_data))%Q
                   genders ages)
        end
    end.

End App.

(** ** Sample data *)

Module Sample.

(** Simple stand-ins for the three library routines, enough to run the
    pipeline on sheets whose numbers are written with digits only and
    whose date columns are left as they are. *)
Fixpoint digits_value (acc : Z) (s : string) : option Z :=
  match s with
  | EmptyString => Some acc
  | String c r =>
      match Ascii.is_nat c with
      | Some d => digits_value (10 * acc + Z.of_nat d) r
      | None => None
      end
  end.

Definition parse_digits (s : string) : option Q :=
  if PyStr.is_empty s then None else inject_Z <$> digits_value 0 s.

Definition repr_not_needed (q : Q) : string := "<float>".

Definition dates_untouched (vs : list cell) : option (list cell) := None.

Definition process : DataProcessor.workbook → M (DataFrame * DataFrame * DataFrame) :=
  DataProcessor.process_excel_file repr_not_needed parse_digits dates_untouched.

(** The workbook of the specification's example: one patient, two
    diagnoses, one of them for an unknown identifier. *)
Definition patient_sheet : DataFrame :=
  mkFrame ["Registry ID"; "Age"; "Sex"] [[CStr "A1"; CStr "34"; CStr "M"]].

Definition diagnosis_sheet : DataFrame :=
  mkFrame ["Registry ID"; "Diagnosis"]
          [[CStr "A1"; CStr "flu"]; [CStr "B2"; CStr "cold"]].

Definition book : DataProcessor.workbook :=
  [("patient_details", patient_sheet); ("diagnosis_details", diagnosis_sheet)].

(** The two tables of that workbook after validation. *)
Definition patients : DataFrame :=
  mkFrame ["REGISTRY ID"; "AGE"; "GENDER"] [[CStr "A1"; CFloat 34; CStr "MALE"]].

Definition diagnoses : DataFrame :=
  mkFrame ["REGISTRY ID"; "DIAGNOSIS"]
          [[CStr "A1"; CStr "FLU"]; [CStr "B2"; CStr "COLD"]].




(** The tables these two workbooks give: the merged table of the example,
    and the validated and merged tables of the workbook with the repeated
    identifier. *)
Definition merged : DataFrame :=
  mkFrame ["REGISTRY ID"; "DIAGNOSIS"; "AGE"; "GENDER"]
          [[CStr "A1"; CStr "FLU"; CFloat 34; CStr "MALE"];
           [CStr "B2"; CStr "COLD"; CNull; CNull]].

Definition repeated_patients : DataFrame :=
  mkFrame ["REGISTRY ID"; "AGE"] [[CStr "A1"; CInt 34]; [CStr "A1"; CInt 35]].



(** A workbook whose patient sheet lists A1 twice, first without an age. *)
Definition twice_listed_book : DataProcessor.workbook :=
  [("patients",
    mkFrame ["Registry ID"; "Sex"; "Age"]
            [[CStr "A1"; CStr "M"; CNull];
             [CStr "A1"; CStr "M"; CInt 40];
             [CStr "B2"; CStr "F"; CInt 20]]);
   ("diagnoses",
    mkFrame ["Registry ID"; "Diagnosis"]
            [[CStr "A1"; CStr "flu"]; [CStr "B2"; CStr "cold"]])].

Definition twice_listed_patients : DataFrame :=
  mkFrame ["REGISTRY ID"; "GENDER"; "AGE"]
          [[CStr "A1"; CStr "MALE"; CNull];
           [CStr "A1"; CStr "MALE"; CInt 40];
           [CStr "B2"; CStr "FEMALE"; CInt 20]].

Definition twice_listed_merged : DataFrame :=
  mkFrame ["REGISTRY ID"; "DIAGNOSIS"; "GENDER"; "AGE"]
          [[CStr "A1"; CStr "FLU"; CStr "MALE"; CNull];
           [CStr "A1"; CStr "FLU"; CStr "MALE"; CInt 40];
           [CStr "B2"; CStr "COLD"; CStr "FEMALE"; CInt 20]].

(** Validated tables without a common identifier. *)
Definition unrelated_diagnoses : DataFrame :=
  mkFrame ["REGISTRY ID"; "DIAGNOSIS"] [[CStr "B2"; CStr "COLD"]].

End Sample.

(** ** Notions used in the statements *)

(** The identifier column of a table, and the identifier of a row. *)
Definition ids (df : DataFrame) : list cell := default [] (column "REGISTRY ID" df).

Definition id_of (df : DataFrame) (r : list cell) : cell :=
  match col_index "REGISTRY ID" (columns df) with
  | Some i => cell_at i r
  | None => CNull
  end.

(** An identifier has a match in a table; two tables share an identifier;
    no identifier occurs twice in a table. *)
Definition has_match (df : DataFrame) (k : cell) : bool := existsb (cell_eqb k) (ids df).

Definition ids_overlap (diagnosis patient : DataFrame) : bool :=
  existsb (has_match patient) (ids diagnosis).

Definition ids_unique (df : DataFrame) : bool :=
  forallb (λ k, (count_cell k (ids df) =? 1)%nat) (ids df).


Definition patient_side (diagnosis : DataFrame) (r : list cell) : list cell :=
  drop (length (columns diagnosis)) r.

(** The distinct identifiers of a table, nulls left out, and the cells of
    a column in the rows of one identifier. *)
Definition distinct_ids (df : DataFrame) : list cell :=
  unique (List.filter notna (ids df)).

Definition cells_of (col : string) (df : DataFrame) (k : cell) : list cell :=
  match col_index col (columns df) with
  | Some j => cell_at j <$> List.filter (λ r, cell_eqb k (id_of df r)) (rows df)
  | None => []
  end.

(** The summary in the words of the specification: percentages over the
    number of distinct patients, and the age of an identifier taken from
    the first row that carries it. *)
Definition distinct_patient_count (patient : DataFrame) : nat :=
  length (distinct_ids patient).

Definition first_occurrence (l : list cell) : cell := default CNull (head l).

Definition first_occurrence_ages (merged : DataFrame) : list Q :=
  omap (λ k, num_of_cell (first_occurrence (cells_of "AGE" merged k)))
       (distinct_ids merged).

(** The match count in the words of the specification: the merged rows with
    at least one patient-side cell that is not null. *)
Definition rows_with_patient_data (diagnosis merged : DataFrame) : nat :=
  length (List.filter (λ r, existsb notna (patient_side diagnosis r)) (rows merged)).

(** A sheet matches a keyword list when one keyword occurs in its name,
    both taken in lower case. *)
Definition sheet_matches (keywords : list string) (sheet : string) : bool :=
  existsb (λ keyword, PyStr.contains (PyStr.lower keyword) (PyStr.lower sheet)) keywords.


(** The tests of [_process_age_column] and [_process_gender_column] on a
    column label in upper case. *)
Definition ends_with_age (col : string) : bool :=
  String.eqb col "AGE" || PyStr.endswith " AGE" col.

Definition mentions_age (col : string) : bool :=
  PyStr.contains "AGE" col && negb (PyStr.contains "TRIAGE" col).

Definition is_gender_label (col : string) : bool :=
  existsb (λ keyword, PyStr.contains keyword (PyStr.upper col)) ["GENDER"; "SEX"].

(** A table without rows but with the identifier column. *)
Definition no_rows : DataFrame := mkFrame ["REGISTRY ID"] [].

(** The tests of [_clean_dataframe], [_process_date_columns] and
    [_process_diagnosis_columns] on a column label. *)
Definition is_registry_label (col : string) : bool :=
  existsb (λ keyword, PyStr.contains keyword (PyStr.upper col))
          DataProcessor.registry_keywords.

Definition is_date_label (col : string) : bool :=
  existsb (λ keyword, PyStr.contains keyword (PyStr.upper col))
          DataProcessor.date_keywords.

Definition is_diagnosis_label (col : string) : bool :=
  PyStr.contains "DIAGNOSIS" (PyStr.upper col)
  || PyStr.contains "CONDITION" (PyStr.upper col).

(** What the two assignments of [_process_diagnosis_columns] make of one
    cell. *)
Definition normalize_diagnosis (repr_float : Q → string) (c : cell) : cell :=
  DataProcessor.nan_text_to_null
    (str_upper (str_strip (DataProcessor.astype_str repr_float c))).

(** A text without blanks around it and without lower-case letters. *)
Definition trimmed_upper (s : string) : Prop :=
  PyStr.strip s = s ∧ PyStr.upper s = s.

(** A cell that is null or holds a number from 0 to 150. *)
Definition plausible_age (c : cell) : Prop :=
  c = CNull ∨ ∃ x, num_of_cell c = Some x ∧ (0 <= x ∧ x <= 150)%Q.

(** The position of the [k]-th [true] of a mask. *)
Fixpoint nth_true (mask : list bool) (k : nat) : option nat :=
  match mask with
  | [] => None
  | b :: rest =>
      if b then match k with
                | O => Some 0%nat
                | S k' => S <$> nth_true rest k'
                end
      else S <$> nth_true rest k
  end.

(** The sheets of a workbook are rectangular and keep distinct labels when
    cleaned. *)
Definition well_formed_book (wb : DataProcessor.workbook) : Prop :=
  Forall (λ sh : string * DataFrame,
            rectangular sh.2 = true
            ∧ NoDup (columns (DataProcessor.clean_dataframe sh.2))) wb.

(** ** utils.py: text, date and age helpers *)

Module UtilsMore.

Import PyStr.

Section Externals.

(** Python's [repr] of a float, as before, and [int] on a text ([None]
    when it raises). *)
Variable repr_float : Q → string.
Variable parse_int : string → option Z.

(** [series.replace(targets, np.nan)] on one cell. *)
Definition replace_with_null (targets : list string) (c : cell) : cell :=
  match c with
  | CStr s => if bool_decide (s ∈ targets) then CNull else c
  | _ => c
  end.

Definition clean_text_column (series : list cell) : list cell :=
  let cleaned := DataProcessor.astype_str repr_float <$> series in
  let cleaned := replace_with_null ["nan"; "NaN"; "NULL"; "null"; ""] <$> cleaned in
  (λ c, str_upper (str_strip c)) <$> cleaned.

(** The four patterns of [is_date_like]: a digit, or a given character. *)
Inductive pattern_item := Digit | Lit (c : ascii).

Definition is_digit (c : ascii) : bool :=
  ((48 <=? code c) && (code c <=? 57))%nat.

(** [re.match(pattern, s)]: the pattern is read at the start of [s]. *)
Fixpoint re_match (pattern : list pattern_item) (s : string) : bool :=
  match pattern with
  | [] => true
  | item :: rest =>
      match s with
      | EmptyString => false
      | String c r =>
          match item with
          | Digit => is_digit c
          | Lit a => Ascii.eqb a c
          end && re_match rest r
      end
  end.

Definition date_patterns : list (list pattern_item) :=
  [ [Digit; Digit; Digit; Digit; Lit "-"; Digit; Digit; Lit "-"; Digit; Digit];
    [Digit; Digit; Lit "/"; Digit; Digit; Lit "/"; Digit; Digit; Digit; Digit];
    [Digit; Digit; Lit "-"; Digit; Digit; Lit "-"; Digit; Digit; Digit; Digit];
    [Digit; Digit; Digit; Digit; Lit "/"; Digit; Digit; Lit "/"; Digit; Digit] ].

Fixpoint is_date_like_from (patterns : list (list pattern_item)) (value : string) : bool :=
  match patterns with
  | [] => false
  | pattern :: rest =>
      if re_match pattern (strip value) then true else is_date_like_from rest value
  end.

Definition is_date_like (value : string) : bool :=
  is_date_like_from date_patterns value.

Definition column_mappings : list (string * string) :=
  [("PATIENT_ID", "REGISTRY ID");
   ("PATIENTID", "REGISTRY ID");
   ("ID", "REGISTRY ID");
   ("PATIENT_REGISTRY_ID", "REGISTRY ID");
   ("SEX", "GENDER");
   ("DIAGNOSIS_CODE", "DIAGNOSIS");
   ("DIAG_CODE", "DIAGNOSIS");
   ("CONDITION", "DIAGNOSIS");
   ("DIAGNOSIS_DATE", "DATE");
   ("ADMISSION_DATE", "DATE");
   ("VISIT_DATE", "DATE")].

Definition standardize_column_names (df : DataFrame) : DataFrame :=
  let df_copy := mkFrame ((λ col, upper (strip col)) <$> columns df) (rows df) in
  foldl (λ df_copy (names : string * string),
           if has_column names.1 df_copy && negb (has_column names.2 df_copy)
           then rename names.1 names.2 df_copy
           else df_copy)
        df_copy column_mappings.

(** [int(age)]: a float is cut towards zero. *)
Definition py_int (c : cell) : option Z :=
  match c with
  | CNull => None
  | CInt z => Some z
  | CFloat q => Some (Z.quot (Qnum q) (Z.pos (Qden q)))
  | CStr s => parse_int s
  end.

Definition categorize_age (age : cell) : option string :=
  if isna age then Some "Unknown"
  else
    age ← py_int age;
    Some (if age <=? 10 then "1-10"
          else if age <=? 20 then "11-20"
          else if age <=? 30 then "21-30"
          else if age <=? 40 then "31-40"
          else if age <=? 50 then "41-50"
          else if age <=? 60 then "51-60"
          else if age <=? 70 then "61-70"
          else if age <=? 80 then "71-80"
          else if age <=? 90 then "81-90"
          else "90+").

(** [ages.apply(categorize_age)]: it raises when one call raises. *)
Definition calculate_age_groups (ages : list cell) : option (list string) :=
  mapM categorize_age ages.

End Externals.

End UtilsMore.

(** ** data_processor.py: the tables the processor keeps *)

Module Session.

Record Processor := mkProcessor {
  patient_data : option DataFrame;
  diagnosis_data : option DataFrame;
  merged_data : option DataFrame
}.

(** [__init__] *)
Definition init : Processor := mkProcessor None None None.

Section Externals.

Variable repr_float : Q → string.
Variable parse_number : string → option Q.
Variable to_datetime : list cell → option (list cell).

(** [process_excel_file] with the three assignments to [self] that precede
    its [return]; an exception leaves [self] as it was. *)
Definition process_excel_file (self : Processor) (wb : DataProcessor.workbook)
  : M (DataFrame * DataFrame * DataFrame) * Processor :=
  let result := DataProcessor.process_excel_file repr_float parse_number to_datetime wb in
  match result.1 with
  | inr (p, d, m) => (result, mkProcessor (Some p) (Some d) (Some m))
  | inl _ => (result, self)
  end.

(** The processor after one upload after the other. *)
Definition after_runs (self : Processor) (uploads : list DataProcessor.workbook)
  : Processor :=
  foldl (λ self wb, (process_excel_file self wb).2) self uploads.

End Externals.

Record DataSummary := mkSummary {
  total_patients : nat;
  total_diagnoses : nat;
  merged_records : nat;
  summary_columns : list string;
  data_types : gmap string Utils.dtype
}.

(** [series.nunique()] *)
Definition nunique (vs : list cell) : nat := length (unique (List.filter notna vs)).

(** [get_data_summary]: [inr None] stands for the empty dict, [inl] for the
    KeyError of a patient table without the identifier column. *)
Definition get_data_summary (self : Processor) : error + option DataSummary :=
  match merged_data self with
  | None => inr None
  | Some merged =>
      let total :=
        match patient_data self with
        | Some patients =>
            match column "REGISTRY ID" patients with
            | Some vs => inr (nunique vs)
            | None => inl (KeyError "REGISTRY ID")
            end
        | None => inr 0%nat
        end in
      match total with
      | inl e => inl e
      | inr total_patients =>
          inr (Some (mkSummary total_patients
                       (match diagnosis_data self with Some d => len d | None => 0%nat end)
                       (len merged) (columns merged) (Utils.dtypes merged)))
      end
  end.

End Session.

(** ** visualizations.py: the data of two figures *)

Module Visualizations.

Inductive figure_error :=
| FigureKeyError (label : string)
| FigureValueError.

Definition category_order : list string :=
  ["1-10"; "11-20"; "21-30"; "31-40"; "41-50"; "51-60"; "61-70"; "71-80"; "81-90";
   "90+"; "Unknown"].

(** [counts.reindex(order).fillna(0)] on the result of [value_counts]. *)
Definition reindex (order : list string) (counts : list (cell * nat))
  : list (string * nat) :=
  (λ label,
     (label,
      default 0%nat
        (snd <$> List.find (λ e : cell * nat, cell_eqb (CStr label) e.1) counts)))
    <$> order.

Section Externals.

Variable parse_int : string → option Z.

(** [create_age_distribution], up to the bars (x, y) handed to [px.bar];
    [inr None] is the return of [None].  The inner [categorize_age] is the
    one of utils.py, line for line. *)
Definition create_age_distribution (merged_data : DataFrame)
  : figure_error + option (list (string * nat)) :=
  if negb (has_column "AGE" merged_data) then inr None
  else
    match App.groupby_first "REGISTRY ID" "AGE" merged_data with
    | None => inl (FigureKeyError "REGISTRY ID")
    | Some firsts =>
        let patient_ages := List.filter notna firsts.*2 in
        if (length patient_ages =? 0)%nat then inr None
        else
          match UtilsMore.calculate_age_groups parse_int patient_ages with
          | None => inl FigureValueError
          | Some age_categories =>
              let age_counts := value_counts (CStr <$> age_categories) in
              inr (Some (reindex category_order age_counts))
          end
    end.

End Externals.

(** [create_gender_distribution], up to the slices (names, values) handed
    to [px.pie]. *)
Definition create_gender_distribution (merged_data : DataFrame)
  : figure_error + option (list (cell * nat)) :=
  if negb (has_column "GENDER" merged_data) then inr None
  else
    match App.groupby_first "REGISTRY ID" "GENDER" merged_data with
    | None => inl (FigureKeyError "REGISTRY ID")
    | Some firsts =>
        let patient_genders := List.filter notna firsts.*2 in
        if (length patient_genders =? 0)%nat then inr None
        else inr (Some (value_counts patient_genders))
    end.

End Visualizations.

(** The texts that [clean_text_column] replaces by a null. *)
Definition null_spellings : list string := ["nan"; "NaN"; "NULL"; "null"; ""].

(** * Properties *)

(** ** Text operations *)

Section TextFacts.

Import PyStr.

Lemma upper_char_idem c : upper_char (upper_char c) = upper_char c.
Proof. destruct c as [[] [] [] [] [] [] [] []]; reflexivity. Qed.

Lemma isspace_upper_char c : isspace (upper_char c) = isspace c.
Proof. destruct c as [[] [] [] [] [] [] [] []]; reflexivity. Qed.

Lemma upper_idem s : upper (upper s) = upper s.
Proof. induction s as [|c s IH]; simpl; [done|]. by rewrite upper_char_idem, IH. Qed.

Lemma is_empty_upper s : is_empty (upper s) = is_empty s.
Proof. by destruct s. Qed.

Lemma lstrip_upper s : lstrip (upper s) = upper (lstrip s).
Proof.
  induction s as [|c s IH]; simpl; [done|].
  rewrite isspace_upper_char. by destruct (isspace c).
Qed.

Lemma rstrip_upper s : rstrip (upper s) = upper (rstrip s).
Proof.
  induction s as [|c s IH]; simpl; [done|].
  rewrite isspace_upper_char, IH, is_empty_upper.
  by destruct (isspace c && is_empty (rstrip s)).
Qed.

Lemma strip_upper s : strip (upper s) = upper (strip s).
Proof. unfold strip. by rewrite rstrip_upper, lstrip_upper. Qed.

Lemma lstrip_idem s : lstrip (lstrip s) = lstrip s.
Proof.
  induction s as [|c s IH]; simpl; [done|].
  destruct (isspace c) eqn:E; [done|]. simpl. by rewrite E.
Qed.

Lemma rstrip_idem s : rstrip (rstrip s) = rstrip s.
Proof.
  induction s as [|c s IH]; simpl; [done|].
  destruct (isspace c && is_empty (rstrip s)) eqn:E; simpl; [done|].
  by rewrite IH, E.
Qed.

Lemma rstrip_lstrip s : rstrip (lstrip s) = lstrip (rstrip s).
Proof.
  induction s as [|c s IH]; simpl; [done|].
  destruct (isspace c) eqn:E; simpl.
  - rewrite IH. destruct (rstrip s) eqn:R; simpl; [done|]. by rewrite E.
  - by rewrite E.
Qed.

Lemma strip_idem s : strip (strip s) = strip s.
Proof.
  unfold strip. by rewrite (rstrip_lstrip (rstrip s)), rstrip_idem, lstrip_idem.
Qed.

Lemma strip_upper_strip s : strip (upper (strip s)) = upper (strip s).
Proof. by rewrite strip_upper, strip_idem. Qed.

Lemma contains_nonempty_in_empty k : is_empty k = false → contains k "" = false.
Proof. by destruct k. Qed.

End TextFacts.

(** ** Sheet resolution *)

Section SheetResolver.

Import PyStr DataProcessor.

Variable repr_float : Q → string.
Variable parse_number : string → option Q.
Variable to_datetime : list cell → option (list cell).

Lemma keyword_in_sheet_matches sheet keywords :
  keyword_in_sheet sheet keywords = sheet_matches keywords sheet.
Proof.
  induction keywords as [|k ks IH]; simpl; [done|].
  rewrite IH. by destruct (contains (lower k) (lower sheet)).
Qed.

Lemma sheet_matches_perm keywords keywords' sheet :
  keywords ≡ₚ keywords' → sheet_matches keywords sheet = sheet_matches keywords' sheet.
Proof.
  intros Hp. unfold sheet_matches. apply eq_true_iff_eq.
  rewrite !existsb_exists.
  split; intros (k & Hin & Hk); exists k; split; try done;
    apply list_elem_of_In; apply list_elem_of_In in Hin.
  - by rewrite <- Hp.
  - by rewrite Hp.
Qed.

Lemma find_sheet_some sheet_names keywords sheet :
  find_sheet sheet_names keywords = Some sheet ↔
  ∃ before after,
    sheet_names = before ++ sheet :: after
    ∧ sheet_matches keywords sheet = true
    ∧ Forall (λ s, sheet_matches keywords s = false) before.
Proof.
  induction sheet_names as [|s rest IH]; simpl.
  - split; [done|]. intros (b & a & H & _). by destruct b.
  - rewrite keyword_in_sheet_matches.
    destruct (sheet_matches keywords s) eqn:E.
    + split.
      * intros [= <-]. by exists [], rest.
      * intros ([|b bs] & a & H & Hm & Hb); simplify_eq/=; [done|].
        apply Forall_cons in Hb as [Hb _]. congruence.
    + rewrite IH. split.
      * intros (b & a & -> & Hm & Hb). exists (s :: b), a. split_and!; auto.
      * intros ([|b bs] & a & H & Hm & Hb); simplify_eq/=; [congruence|].
        apply Forall_cons in Hb as [_ Hb]. by exists bs, a.
Qed.

Lemma find_sheet_none sheet_names keywords :
  find_sheet sheet_names keywords = None ↔
  Forall (λ s, sheet_matches keywords s = false) sheet_names.
Proof.
  induction sheet_names as [|s rest IH]; simpl.
  - split; [by constructor|done].
  - rewrite keyword_in_sheet_matches, Forall_cons.
    destruct (sheet_matches keywords s).
    + split; [done|]. by intros [? _].
    + rewrite IH. split; [done|]. by intros [_ ?].
Qed.

Lemma find_sheet_perm sheet_names keywords keywords' :
  keywords ≡ₚ keywords' →
  find_sheet sheet_names keywords = find_sheet sheet_names keywords'.
Proof.
  intros Hp. induction sheet_names as [|s rest IH]; simpl; [done|].
  by rewrite !keyword_in_sheet_matches, (sheet_matches_perm _ _ _ Hp), IH.
Qed.

(** A sheet found for one of the two roles has a name that is not empty,
    so that [not sheet] holds for a missing sheet only. *)
Lemma found_sheet_truthy sheet_names keywords sheet :
  Forall (λ k, is_empty k = false) keywords →
  find_sheet sheet_names keywords = Some sheet →
  is_falsy (Some sheet) = false.
Proof.
  intros Hk (b & a & _ & Hm & _)%find_sheet_some. simpl.
  destruct sheet; [|done]. exfalso.
  unfold sheet_matches in Hm. apply existsb_exists in Hm as (k & Hin & Hc).
  apply list_elem_of_In in Hin. rewrite Forall_forall in Hk.
  destruct k; [by apply Hk in Hin|done].
Qed.

Local Abbreviation process := (process_excel_file repr_float parse_number to_datetime).

Lemma no_patient_sheet wb :
  find_sheet wb.*1 patient_keywords = None →
  process wb = (inl (ErrorProcessingExcelFile PatientSheetNotFound), []).
Proof. intros H. unfold process_excel_file. by rewrite H. Qed.

Lemma no_diagnosis_sheet wb :
  is_Some (find_sheet wb.*1 patient_keywords) →
  find_sheet wb.*1 diagnosis_keywords = None →
  process wb = (inl (ErrorProcessingExcelFile DiagnosisSheetNotFound), []).
Proof.
  intros [p Hp] H. unfold process_excel_file. rewrite Hp, H.
  assert (Forall (λ k, is_empty k = false) patient_keywords) as Hk
    by repeat constructor.
  by rewrite (found_sheet_truthy _ _ _ Hk Hp).
Qed.

(** C7. [_find_sheet] returns the first sheet, in the order of the
    workbook, whose name contains one of the keywords (names and keywords
    compared in lower case); there is no result exactly when no sheet
    matches; the order of the keywords does not matter; the result is a
    function of the two lists; and a workbook without a sheet for a role
    makes [process_excel_file] raise the sheet-not-found error, the
    patient role being checked first. *)
Theorem sheet_resolution_first_match (sheet_names keywords : list string) :
  (∀ sheet, find_sheet sheet_names keywords = Some sheet ↔
     ∃ before after,
       sheet_names = before ++ sheet :: after
       ∧ sheet_matches keywords sheet = true
       ∧ Forall (λ s, sheet_matches keywords s = false) before)
  ∧ (find_sheet sheet_names keywords = None ↔
       Forall (λ s, sheet_matches keywords s = false) sheet_names)
  ∧ (∀ keywords', keywords ≡ₚ keywords' →
       find_sheet sheet_names keywords' = find_sheet sheet_names keywords)
  ∧ (∀ names' keywords', names' = sheet_names → keywords' = keywords →
       find_sheet names' keywords' = find_sheet sheet_names keywords)
  ∧ (∀ wb, wb.*1 = sheet_names →
       (find_sheet sheet_names patient_keywords = None →
        process wb = (inl (ErrorProcessingExcelFile PatientSheetNotFound), []))
       ∧ (find_sheet sheet_names diagnosis_keywords = None →
          process wb = (inl (ErrorProcessingExcelFile PatientSheetNotFound), [])
          ∨ process wb = (inl (ErrorProcessingExcelFile DiagnosisSheetNotFound), []))
       ∧ (is_Some (find_sheet sheet_names patient_keywords) →
          find_sheet sheet_names diagnosis_keywords = None →
          process wb = (inl (ErrorProcessingExcelFile DiagnosisSheetNotFound), []))).
Proof.
  split_and!.
  - intros sheet. apply find_sheet_some.
  - apply find_sheet_none.
  - intros k' Hp. symmetry. by apply find_sheet_perm.
  - by intros ?? -> ->.
  - intros wb <-. split_and!.
    + apply no_patient_sheet.
    + intros Hd. destruct (find_sheet wb.*1 patient_keywords) eqn:Hp.
      * right. apply no_diagnosis_sheet; [by rewrite Hp|done].
      * left. by apply no_patient_sheet.
    + apply no_diagnosis_sheet.
Qed.

End SheetResolver.

(** The keyword "diag" comes last in its list and still selects the first
    sheet, although "diagnosis" would match the second one. *)
Lemma sheet_resolution_first_match_witness :
  DataProcessor.find_sheet ["Diag codes"; "diagnosis"; "patients"]
                           DataProcessor.diagnosis_keywords = Some "Diag codes"
  ∧ Sample.process [("notes", Sample.patient_sheet)]
    = (inl (ErrorProcessingExcelFile PatientSheetNotFound), []).
Proof.
  pose proof (sheet_resolution_first_match Sample.repr_not_needed Sample.parse_digits
                Sample.dates_untouched ["notes"] DataProcessor.diagnosis_keywords)
    as (_ & _ & _ & _ & Hwb).
  split; [reflexivity|].
  destruct (Hwb [("notes", Sample.patient_sheet)] eq_refl) as (Hp & _).
  apply Hp. reflexivity.
Defined.

(** ** Normalisation of one cell *)

Section AgeCell.

Import PyStr DataProcessor.

Variable parse_number : string → option Q.

Local Abbreviation to_num := (to_numeric parse_number).
Local Abbreviation norm_age := (normalize_age parse_number).

Lemma to_numeric_not_text c s : to_num c ≠ CStr s.
Proof. destruct c as [| | |t]; simpl; try done. by destruct (parse_number t). Qed.


Lemma in_range_iff x :
  negb (Qle_bool 0 x) || negb (Qle_bool x 150) = false ↔ (0 <= x ∧ x <= 150)%Q.
Proof.
  rewrite orb_false_iff, !negb_false_iff, !Qle_bool_iff. tauto.
Qed.


End AgeCell.

Section GenderCell.

Import PyStr DataProcessor.

Variable repr_float : Q → string.

Local Abbreviation norm_gender := (normalize_gender repr_float).

Lemma gender_mapping_values k g :
  gender_mapping !! k = Some g →
  g ∈ ["MALE"; "FEMALE"; "TRANSGENDER"; "OTHER"].
Proof.
  intros H. apply elem_of_list_to_map_2 in H.
  rewrite !elem_of_cons, elem_of_nil in H.
  rewrite !elem_of_cons.
  destruct_or!; simplify_eq; tauto.
Qed.

Lemma normalize_gender_text c :
  norm_gender c
  = CStr (default (upper (strip (py_str repr_float c)))
                  (gender_mapping !! upper (strip (py_str repr_float c)))).
Proof.
  unfold normalize_gender, apply_gender_mapping, to_stripped_text, astype_str. simpl.
  by destruct (gender_mapping !! _).
Qed.


End GenderCell.



(** ** Frames *)

Section FrameFacts.

Lemma rectangular_Forall df :
  rectangular df = true ↔ Forall (λ r, length r = length (columns df)) (rows df).
Proof.
  unfold rectangular. induction (rows df) as [|r rs IH]; simpl.
  - split; [by constructor|done].
  - rewrite andb_true_iff, Forall_cons, IH, Nat.eqb_eq. done.
Qed.

Lemma col_index_Some name cols i :
  col_index name cols = Some i →
  cols !! i = Some name ∧ ∀ j, (j < i)%nat → cols !! j ≠ Some name.
Proof.
  revert i. induction cols as [|c cs IH]; intros i; simpl; [done|].
  destruct (String.eqb_spec c name) as [->|Hne].
  - intros [= <-]. split; [done|]. intros j Hj. lia.
  - destruct (col_index name cs) as [k|] eqn:E; simpl; [|done].
    intros [= <-]. destruct (IH k eq_refl) as [H1 H2]. split; [done|].
    intros [|j] Hj; simpl; [congruence|]. apply H2. lia.
Qed.

Lemma col_index_lt name cols i :
  col_index name cols = Some i → (i < length cols)%nat.
Proof. intros [H _]%col_index_Some. by apply lookup_lt_Some in H. Qed.

Lemma col_index_None name cols : col_index name cols = None ↔ name ∉ cols.
Proof.
  induction cols as [|c cs IH]; simpl.
  - split; [intros _; apply not_elem_of_nil|done].
  - rewrite not_elem_of_cons. destruct (String.eqb_spec c name) as [->|Hne].
    + split; [done|]. by intros [? _].
    + destruct (col_index name cs) eqn:E; simpl.
      * split; [done|]. intros [_ H]. by apply IH in H.
      * split; [|done]. intros _. split; [congruence|]. by apply IH.
Qed.

Lemma col_index_elem name cols : name ∈ cols → is_Some (col_index name cols).
Proof.
  intros H. destruct (col_index name cols) eqn:E; [by eexists|].
  by apply col_index_None in E.
Qed.

Lemma col_index_ne n m cols i j :
  n ≠ m → col_index n cols = Some i → col_index m cols = Some j → i ≠ j.
Proof.
  intros Hne [Hi _]%col_index_Some [Hj _]%col_index_Some ->. congruence.
Qed.

Lemma has_column_true name df : has_column name df = true ↔ name ∈ columns df.
Proof. unfold has_column. apply bool_decide_eq_true. Qed.

Lemma assign_rows_length i rs vs : length (assign_rows i rs vs) = length rs.
Proof.
  revert vs. induction rs as [|r rs IH]; intros [|v vs]; simpl; try done.
  by rewrite IH.
Qed.

Lemma assign_rows_widths i rs vs n :
  Forall (λ r, length r = n) rs → Forall (λ r, length r = n) (assign_rows i rs vs).
Proof.
  intros H. revert vs. induction H as [|r rs Hr Hrs IH]; intros [|v vs]; simpl;
    try by constructor.
  constructor; [by rewrite length_insert|apply IH].
Qed.

Lemma cell_at_insert_eq i v (r : list cell) :
  (i < length r)%nat → cell_at i (<[i := v]> r) = v.
Proof. intros H. unfold cell_at. by rewrite list_lookup_insert_eq. Qed.

Lemma cell_at_insert_ne i j v (r : list cell) :
  i ≠ j → cell_at j (<[i := v]> r) = cell_at j r.
Proof. intros H. unfold cell_at. by rewrite list_lookup_insert_ne. Qed.

Lemma assign_rows_same i rs vs :
  Forall (λ r, (i < length r)%nat) rs → length vs = length rs →
  cell_at i <$> assign_rows i rs vs = vs.
Proof.
  intros H. revert vs. induction H as [|r rs Hr Hrs IH]; intros [|v vs] Hl;
    simplify_eq/=; [done|].
  by rewrite cell_at_insert_eq, IH.
Qed.

Lemma assign_rows_other i j rs vs :
  i ≠ j → cell_at j <$> assign_rows i rs vs = cell_at j <$> rs.
Proof.
  intros Hne. revert vs. induction rs as [|r rs IH]; intros [|v vs]; simpl; try done.
  by rewrite cell_at_insert_ne, IH.
Qed.

Lemma set_column_columns n vs df : columns (set_column n vs df) = columns df.
Proof. unfold set_column. by destruct (col_index n (columns df)). Qed.

Lemma set_column_len n vs df : len (set_column n vs df) = len df.
Proof.
  unfold set_column, len. destruct (col_index n (columns df)); [|done].
  apply assign_rows_length.
Qed.

Lemma set_column_rectangular n vs df :
  rectangular df = true → rectangular (set_column n vs df) = true.
Proof.
  rewrite !rectangular_Forall, set_column_columns. unfold set_column.
  destruct (col_index n (columns df)); [|done]. apply assign_rows_widths.
Qed.

Lemma set_column_other n m vs df :
  n ≠ m → column m (set_column n vs df) = column m df.
Proof.
  intros Hne. unfold column. rewrite set_column_columns.
  destruct (col_index m (columns df)) as [j|] eqn:Hj; [|done]. simpl.
  unfold set_column. destruct (col_index n (columns df)) as [i|] eqn:Hi; [|done].
  simpl. by rewrite (assign_rows_other i j) by eauto using col_index_ne.
Qed.

Lemma set_column_same n vs df :
  rectangular df = true → n ∈ columns df → length vs = len df →
  column n (set_column n vs df) = Some vs.
Proof.
  intros Hr [i Hi]%col_index_elem Hl. unfold column, set_column.
  rewrite Hi. simpl. rewrite Hi. simpl. f_equal.
  apply assign_rows_same; [|done].
  apply rectangular_Forall in Hr. apply col_index_lt in Hi.
  eapply Forall_impl; [exact Hr|]. simpl. intros r ->. done.
Qed.

Lemma column_length n df vs : column n df = Some vs → length vs = len df.
Proof.
  unfold column. destruct (col_index n (columns df)); [|done].
  intros [= <-]. by rewrite length_fmap.
Qed.

Lemma column_is_Some n df : n ∈ columns df → is_Some (column n df).
Proof. intros [i Hi]%col_index_elem. unfold column. rewrite Hi. by eexists. Qed.

Lemma apply_column_columns n f df : columns (apply_column n f df) = columns df.
Proof. unfold apply_column. destruct (column n df); [apply set_column_columns|done]. Qed.

Lemma apply_column_len n f df : len (apply_column n f df) = len df.
Proof. unfold apply_column. destruct (column n df); [apply set_column_len|done]. Qed.

Lemma apply_column_rectangular n f df :
  rectangular df = true → rectangular (apply_column n f df) = true.
Proof.
  intros H. unfold apply_column. destruct (column n df); [|done].
  by apply set_column_rectangular.
Qed.

Lemma apply_column_other n m f df :
  n ≠ m → column m (apply_column n f df) = column m df.
Proof.
  intros H. unfold apply_column. destruct (column n df); [|done].
  by apply set_column_other.
Qed.

Lemma apply_column_same n f df :
  rectangular df = true →
  column n (apply_column n f df) = (λ vs : list cell, f <$> vs) <$> column n df.
Proof.
  intros Hr. unfold apply_column. destruct (column n df) as [vs|] eqn:E.
  - simpl. apply set_column_same; [done| |].
    + unfold column in E. destruct (col_index n (columns df)) eqn:Hi; [|done].
      apply dec_stable. intros Hn. apply col_index_None in Hn. congruence.
    + rewrite length_fmap. by eapply column_length.
  - by rewrite E.
Qed.

Lemma rename_len old new df : len (rename old new df) = len df.
Proof. done. Qed.

Lemma rename_rectangular old new df :
  rectangular df = true → rectangular (rename old new df) = true.
Proof. rewrite !rectangular_Forall. simpl. by rewrite length_fmap. Qed.

Lemma col_index_rename_other m old new cols :
  m ≠ old → m ≠ new →
  col_index m ((λ c, if String.eqb c old then new else c) <$> cols) = col_index m cols.
Proof.
  intros Ho Hn. induction cols as [|c cs IH]; [done|].
  rewrite fmap_cons. cbn [col_index]. rewrite IH.
  destruct (String.eqb_spec c old) as [->|Hc].
  - destruct (String.eqb_spec new m), (String.eqb_spec old m); congruence.
  - done.
Qed.

Lemma col_index_rename_new old new cols :
  new ∉ cols →
  col_index new ((λ c, if String.eqb c old then new else c) <$> cols) = col_index old cols.
Proof.
  induction cols as [|c cs IH]; [done|].
  intros [Hc Hcs]%not_elem_of_cons. rewrite fmap_cons. cbn [col_index].
  rewrite (IH Hcs).
  destruct (String.eqb_spec c old) as [->|Hne].
  - by rewrite String.eqb_refl.
  - destruct (String.eqb_spec c new); congruence.
Qed.

Lemma rename_column_other m old new df :
  m ≠ old → m ≠ new → column m (rename old new df) = column m df.
Proof. intros Ho Hn. unfold column. simpl. by rewrite col_index_rename_other. Qed.

Lemma rename_column_new old new df :
  new ∉ columns df → column new (rename old new df) = column old df.
Proof. intros H. unfold column. simpl. by rewrite col_index_rename_new. Qed.

Lemma head_filter_Some {A} (P : A → bool) (l : list A) a :
  head (List.filter P l) = Some a → P a = true ∧ a ∈ l.
Proof.
  induction l as [|x l IH]; simpl; [done|].
  destruct (P x) eqn:E; simpl.
  - intros [= <-]. split; [done|]. apply list_elem_of_here.
  - intros [H1 H2]%IH. split; [done|]. by apply list_elem_of_further.
Qed.

Lemma head_filter_find {A} (P : A → bool) (l : list A) :
  head (List.filter P l) = List.find P l.
Proof. induction l as [|x l IH]; simpl; [done|]. by destruct (P x). Qed.

Lemma foldl_invariant {A B} (Inv : A → Prop) (f : A → B → A) (l : list B) a :
  Inv a → (∀ a b, b ∈ l → Inv a → Inv (f a b)) → Inv (foldl f a l).
Proof.
  revert a. induction l as [|b l IH]; intros a Ha Hf; simpl; [done|].
  apply IH.
  - apply Hf; [apply list_elem_of_here|done].
  - intros a' b' Hb'. apply Hf. by apply list_elem_of_further.
Qed.

End FrameFacts.

(** ** The join *)

Section Join.

Import DataProcessor.

Lemma Qeq_bool_congr x y z : Qeq_bool x y = true → Qeq_bool x z = Qeq_bool y z.
Proof.
  intros H%Qeq_bool_iff. apply eq_true_iff_eq. rewrite !Qeq_bool_iff.
  split; intros E.
  - by rewrite <- H.
  - by rewrite H.
Qed.

Lemma cell_eqb_congr a b c : cell_eqb a b = true → cell_eqb a c = cell_eqb b c.
Proof.
  destruct a as [|x|x|s], b as [|y|y|t]; simpl; try done;
    try (intros H; destruct c; simpl; try done; by apply Qeq_bool_congr).
  intros ->%String.eqb_eq. done.
Qed.

Lemma count_cell_fmap {A} (f : A → cell) k (l : list A) :
  count_cell k (f <$> l) = length (List.filter (λ r, cell_eqb k (f r)) l).
Proof.
  unfold count_cell. induction l as [|x l IH]; [done|].
  rewrite fmap_cons. cbn [List.filter].
  destruct (cell_eqb k (f x)); cbn [length]; by rewrite IH.
Qed.




Lemma ids_column df j :
  col_index "REGISTRY ID" (columns df) = Some j → ids df = cell_at j <$> rows df.
Proof. intros H. unfold ids, column. by rewrite H. Qed.


Lemma join_row_length i j R w l :
  length (join_row i j R w l) = Nat.max 1 (count_cell (cell_at i l) (cell_at j <$> R)).
Proof.
  rewrite count_cell_fmap. unfold join_row.
  destruct (List.filter _ R) as [|p ps]; simpl; [done|].
  by rewrite length_fmap.
Qed.


Lemma joined_length i j R w L :
  (length L ≤ length (concat (join_row i j R w <$> L)))%nat.
Proof.
  induction L as [|l L IH]; [done|].
  rewrite fmap_cons. cbn [concat length].
  rewrite length_app, join_row_length. lia.
Qed.

Lemma joined_elem i j R w L r :
  r ∈ concat (join_row i j R w <$> L) ↔ ∃ l, l ∈ L ∧ r ∈ join_row i j R w l.
Proof.
  induction L as [|l L IH].
  - simpl. split; [by intros ?%elem_of_nil|]. by intros (l & ?%elem_of_nil & _).
  - rewrite fmap_cons. cbn [concat]. rewrite elem_of_app, IH. split.
    + intros [H|(l' & H1 & H2)].
      * exists l. split; [apply list_elem_of_here|done].
      * exists l'. split; [by apply list_elem_of_further|done].
    + intros (l' & [->|H1]%elem_of_cons & H2); [by left|]. right. eauto.
Qed.


Lemma merge_left_Some left right key ls rs m :
  merge_left left right key ls rs = Some m →
  ∃ i j, col_index key (columns left) = Some i
         ∧ col_index key (columns right) = Some j
         ∧ rows m = concat (join_row i j (rows right)
                              (length (delete j (columns right))) <$> rows left)
         ∧ length (columns m)
           = (length (columns left) + length (delete j (columns right)))%nat.
Proof.
  unfold merge_left.
  destruct (col_index key (columns left)) as [i|]; simpl; [|done].
  destruct (col_index key (columns right)) as [j|]; simpl; [|done].
  intros [= <-]. exists i, j. simpl. split_and!; try done.
  by rewrite length_app, !length_fmap.
Qed.

Lemma merge_data_inr patient_data diagnosis_data m log :
  merge_data patient_data diagnosis_data = (inr m, log) →
  merge_left diagnosis_data patient_data "REGISTRY ID" "_DIAG" "_PATIENT" = Some m
  ∧ empty m = false
  ∧ log = [InfoMergeCompleted
             (len (dropna_subset (List.filter (PyStr.endswith "_PATIENT") (columns m)) m))
             (len diagnosis_data)].
Proof.
  unfold merge_data.
  destruct (merge_left _ _ _ _ _) as [m'|]; [|done].
  destruct (empty m') eqn:E; [done|].
  simpl. by intros [= <- <-].
Qed.

(** The error "No matching records found" is raised exactly when both
    tables carry the identifier column and the diagnosis table has no row;
    whether the identifiers of the two tables overlap plays no role. *)
Lemma merge_data_no_matching_records patient_data diagnosis_data log :
  merge_data patient_data diagnosis_data = (inl (ErrorMergingData NoMatchingRecords), log)
  ↔ has_column "REGISTRY ID" patient_data = true
    ∧ has_column "REGISTRY ID" diagnosis_data = true
    ∧ rows diagnosis_data = [] ∧ log = [].
Proof.
  rewrite !has_column_true. unfold merge_data, merge_left.
  destruct (col_index _ (columns diagnosis_data)) as [i|] eqn:Hi; simpl.
  - destruct (col_index _ (columns patient_data)) as [j|] eqn:Hj; simpl.
    + assert ("REGISTRY ID" ∈ columns patient_data) as Hp.
      { apply dec_stable. intros Hn%col_index_None. congruence. }
      assert ("REGISTRY ID" ∈ columns diagnosis_data) as Hd.
      { apply dec_stable. intros Hn%col_index_None. congruence. }
      unfold empty. simpl.
      destruct (rows diagnosis_data) as [|l L]; simpl.
      * split; [by intros [= <-]|by intros (_ & _ & _ & ->)].
      * destruct (join_row i j (rows patient_data) _ l) as [|r rs] eqn:E.
        { pose proof (join_row_length i j (rows patient_data)
                        (length (delete j (columns patient_data))) l) as Hlen.
          rewrite E in Hlen. simpl in Hlen. lia. }
        simpl. destruct (columns diagnosis_data) as [|c cs]; simpl.
        { by apply elem_of_nil in Hd. }
        split; [done|]. by intros (_ & _ & ? & _).
    + split; [done|]. intros (Hp & _). by apply col_index_None in Hj.
  - split; [done|]. intros (_ & Hd & _). by apply col_index_None in Hi.
Qed.

Lemma filter_all {A} (P : A → bool) (l : list A) :
  (∀ x, P x = true) → List.filter P l = l.
Proof.
  intros H. induction l as [|x l IH]; simpl; [done|]. by rewrite H, IH.
Qed.

Lemma filter_all_elem {A} (P : A → bool) (l : list A) :
  (∀ x, x ∈ l → P x = true) → List.filter P l = l.
Proof.
  induction l as [|x l IH]; intros H; simpl; [done|].
  rewrite H by apply list_elem_of_here.
  rewrite IH; [done|]. intros y Hy. apply H. by apply list_elem_of_further.
Qed.

Lemma dropna_no_labels df : rows (dropna_subset [] df) = rows df.
Proof.
  unfold dropna_subset. simpl. apply filter_all. intros r.
  apply forallb_forall. by intros [c v] _.
Qed.

(** Without a label ending in "_PATIENT" in the merged table, the match
    report counts every merged row as matched. *)
Lemma match_report_without_suffix patient_data diagnosis_data m log :
  merge_data patient_data diagnosis_data = (inr m, log) →
  List.filter (PyStr.endswith "_PATIENT") (columns m) = [] →
  log = [InfoMergeCompleted (len m) (len diagnosis_data)].
Proof.
  intros (_ & _ & ->)%merge_data_inr E. rewrite E.
  unfold len at 1. by rewrite dropna_no_labels.
Qed.


End Join.



(** C2, at tables without a common identifier: the merge returns the
    diagnosis row with null patient cells and raises nothing, whereas the
    claim expects the error of the empty join. *)
Theorem disjoint_identifiers_merge_without_error :
  ids_overlap Sample.unrelated_diagnoses Sample.patients = false
  ∧ DataProcessor.merge_data Sample.patients Sample.unrelated_diagnoses
    = (inr (mkFrame ["REGISTRY ID"; "DIAGNOSIS"; "AGE"; "GENDER"]
                    [[CStr "B2"; CStr "COLD"; CNull; CNull]]),
       [InfoMergeCompleted 1 1]).
Proof. split; reflexivity. Qed.

(** C3, at the example of the specification: the report says that two of
    two diagnosis records matched, although one merged row only has a
    patient cell that is not null. *)
Theorem match_report_counts_unmatched_rows :
  Sample.process Sample.book
  = (inr (Sample.patients, Sample.diagnoses, Sample.merged),
     [InfoAgeColumn; InfoGenderMapping [(CStr "MALE", 1%nat)];
      InfoGenderColumnRenamed "SEX"; InfoMergeCompleted 2 2])
  ∧ DataProcessor.merge_data Sample.patients Sample.diagnoses
    = (inr Sample.merged, [InfoMergeCompleted 2 2])
  ∧ rows_with_patient_data Sample.diagnoses Sample.merged = 1%nat
  ∧ len Sample.merged = 2%nat.
Proof. split_and!; reflexivity. Qed.

(** ** The age and gender columns *)

Section ColumnProcessing.

Import PyStr DataProcessor.

Variable repr_float : Q → string.
Variable parse_number : string → option Q.

Lemma assign_rows_twice i rs vs ws :
  length vs = length ws →
  assign_rows i (assign_rows i rs vs) ws = assign_rows i rs ws.
Proof.
  revert vs ws. induction rs as [|r rs IH]; intros [|v vs] [|w ws] Hl;
    simplify_eq/=; try done.
  by rewrite list_insert_insert_eq, IH.
Qed.

Lemma apply_column_compose n (f g : cell → cell) df :
  rectangular df = true →
  apply_column n g (apply_column n f df) = apply_column n (g ∘ f) df.
Proof.
  intros Hr. unfold apply_column at 1.
  rewrite apply_column_same by done. unfold apply_column.
  destruct (column n df) as [vs|] eqn:E; simpl; [|done].
  unfold set_column.
  destruct (col_index n (columns df)) as [i|] eqn:Hi; simpl; rewrite Hi; [|done].
  rewrite assign_rows_twice by (by rewrite !length_fmap).
  by rewrite <- list_fmap_compose.
Qed.

Lemma rename_same a df : rename a a df = df.
Proof.
  destruct df as [cols rs]. unfold rename. simpl. f_equal.
  induction cols as [|c cs IH]; [done|]. rewrite fmap_cons, IH.
  by destruct (String.eqb_spec c a) as [->|].
Qed.

Lemma rename_as_insert old new cols i :
  NoDup cols → col_index old cols = Some i →
  (λ c, if String.eqb c old then new else c) <$> cols = <[i := new]> cols.
Proof.
  intros Hnd. revert i. induction Hnd as [|c cs Hc Hnd IH]; intros i; [done|].
  rewrite fmap_cons. cbn [col_index].
  destruct (String.eqb_spec c old) as [->|Hne].
  - intros [= <-]. simpl. f_equal.
    apply col_index_None in Hc.
    clear IH Hnd. induction cs as [|d ds IH]; [done|].
    rewrite fmap_cons. cbn [col_index] in Hc.
    destruct (String.eqb_spec d old) as [->|Hd]; [done|].
    rewrite IH; [done|]. by destruct (col_index old ds).
  - destruct (col_index old cs) as [k|] eqn:E; simpl; [|done].
    intros [= <-]. simpl. f_equal. by apply IH.
Qed.

Lemma filter_ext_elem {A} (P Q : A → bool) (l : list A) :
  (∀ x, x ∈ l → P x = Q x) → List.filter P l = List.filter Q l.
Proof.
  induction l as [|x l IH]; intros H; simpl; [done|].
  rewrite (H x) by apply list_elem_of_here.
  rewrite IH; [done|]. intros y Hy. apply H. by apply list_elem_of_further.
Qed.

Lemma select_age_column_upper cols :
  Forall (λ c, upper c = c) cols →
  select_age_column cols
  = if bool_decide ("AGE" ∈ cols) then Some "AGE"
    else match List.find ends_with_age cols with
         | Some c => Some c
         | None => List.find mentions_age cols
         end.
Proof.
  intros Hup. rewrite Forall_forall in Hup. unfold select_age_column.
  case_bool_decide; [done|].
  rewrite (filter_ext_elem _ ends_with_age) by (intros c Hc; by rewrite (Hup c Hc)).
  rewrite (filter_ext_elem (λ col, contains "AGE" (upper col) && _) mentions_age)
    by (intros c Hc; by rewrite (Hup c Hc)).
  rewrite <- !head_filter_find.
  by destruct (List.filter ends_with_age cols).
Qed.

Lemma select_age_column_elem cols a :
  select_age_column cols = Some a →
  a ∈ cols ∧ a ≠ "REGISTRY ID" ∧ (a ≠ "AGE" → "AGE" ∉ cols).
Proof.
  unfold select_age_column. case_bool_decide as Hage.
  - intros [= <-]. done.
  - destruct (List.filter _ cols) as [|c cs] eqn:E.
    + intros [Hp Hin]%head_filter_Some. split_and!; [done| |done].
      intros ->. discriminate Hp.
    + rewrite <- E. intros [Hp Hin]%head_filter_Some. split_and!; [done| |done].
      intros ->. discriminate Hp.
Qed.

Lemma process_age_column_eq df :
  rectangular df = true →
  process_age_column parse_number df
  = match select_age_column (columns df) with
    | None => (inr df, [])
    | Some a =>
        (inr (rename a "AGE" (apply_column a (normalize_age parse_number) df)),
         [if String.eqb a "AGE" then InfoAgeColumn else InfoAgeColumnRenamed a])
    end.
Proof.
  intros Hr. unfold process_age_column.
  destruct (select_age_column (columns df)) as [a|]; [|done].
  rewrite apply_column_compose by done.
  destruct (String.eqb_spec a "AGE") as [->|Hne]; simpl.
  - by rewrite rename_same.
  - done.
Qed.

(** C6. In a cleaned table (labels in upper case) the age column is the
    column "AGE" when there is one; else the first column, in column order,
    whose label is "AGE" or ends with " AGE"; else the first column whose
    label contains "AGE" and does not contain "TRIAGE".  The label
    "TRIAGE LEVEL" is never selected.  [_process_age_column] always returns,
    changes nothing when no column is selected, and else gives the selected
    column the label "AGE"; with distinct labels this changes one position
    only. *)
Theorem age_column_selection (df : DataFrame) :
  Forall (λ c, upper c = c) (columns df) →
  rectangular df = true →
  let cols := columns df in
  ("AGE" ∈ cols → select_age_column cols = Some "AGE")
  ∧ ("AGE" ∉ cols → is_Some (List.find ends_with_age cols) →
       select_age_column cols = List.find ends_with_age cols)
  ∧ ("AGE" ∉ cols → List.find ends_with_age cols = None →
       select_age_column cols = List.find mentions_age cols)
  ∧ select_age_column cols ≠ Some "TRIAGE LEVEL"
  ∧ ∃ df' log,
      process_age_column parse_number df = (inr df', log)
      ∧ match select_age_column cols with
        | None => df' = df
        | Some age_col =>
            columns df' = (λ c, if String.eqb c age_col then "AGE" else c) <$> cols
            ∧ (NoDup cols →
               ∃ i, col_index age_col cols = Some i
                    ∧ columns df' = <[i := "AGE"]> cols)
        end.
Proof.
  intros Hup Hr cols. pose proof (select_age_column_upper cols Hup) as Hsel.
  split_and!.
  - intros H. rewrite Hsel. by rewrite bool_decide_eq_true_2.
  - intros H [c Hc]. rewrite Hsel, bool_decide_eq_false_2 by done. by rewrite Hc.
  - intros H Hc. rewrite Hsel, bool_decide_eq_false_2 by done. by rewrite Hc.
  - rewrite Hsel. case_bool_decide; [done|].
    destruct (List.find ends_with_age cols) as [c|] eqn:E.
    + apply find_some in E as [_ E]. intros [= ->]. discriminate E.
    + intros E'. apply find_some in E' as [_ E']. discriminate E'.
  - rewrite process_age_column_eq by done. fold cols.
    destruct (select_age_column cols) as [a|] eqn:Ea; [|by eexists _, _].
    eexists _, _. split; [done|]. simpl. rewrite apply_column_columns. fold cols.
    split; [done|]. intros Hnd.
    apply select_age_column_elem in Ea as (Hin & _).
    apply col_index_elem in Hin as [i Hi]. exists i. split; [done|].
    by apply rename_as_insert.
Qed.

End ColumnProcessing.

Lemma age_column_selection_witness :
  DataProcessor.select_age_column ["REGISTRY ID"; "TRIAGE LEVEL"; "PATIENT AGE"; "AGE GROUP"]
  = Some "PATIENT AGE"
  ∧ ∃ df' log,
      DataProcessor.process_age_column Sample.parse_digits
        (mkFrame ["REGISTRY ID"; "TRIAGE LEVEL"; "PATIENT AGE"; "AGE GROUP"]
                 [[CStr "A1"; CInt 2; CStr "34"; CStr "30-39"]])
      = (inr df', log)
      ∧ columns df' = ["REGISTRY ID"; "TRIAGE LEVEL"; "AGE"; "AGE GROUP"].
Proof.
  destruct (age_column_selection Sample.parse_digits
              (mkFrame ["REGISTRY ID"; "TRIAGE LEVEL"; "PATIENT AGE"; "AGE GROUP"]
                       [[CStr "A1"; CInt 2; CStr "34"; CStr "30-39"]]))
    as (_ & H2 & _ & _ & df' & log & Hrun & Hcols).
  - repeat constructor.
  - reflexivity.
  - split.
    + apply H2; [|by eexists].
      apply (bool_decide_eq_false_1 ("AGE" ∈ _)). reflexivity.
    + exists df', log. split; [exact Hrun|]. exact (proj1 Hcols).
Defined.

(** ** validate_data *)

Section Validation.

Import Utils.

Lemma dtypes_from_lookup (T : nat → dtype) cs k (m0 : gmap string dtype) c :
  NoDup cs →
  foldl (λ m (jc : nat * string), <[jc.2 := T jc.1]> m) m0 (zip (seq k (length cs)) cs) !! c
  = match col_index c cs with
    | Some i => Some (T (k + i)%nat)
    | None => m0 !! c
    end.
Proof.
  intros Hnd. revert k m0. induction Hnd as [|d ds Hd Hnd IH]; intros k m0; [done|].
  cbn [length seq zip zip_with foldl col_index]. rewrite IH. simpl.
  destruct (String.eqb_spec d c) as [->|Hne].
  - apply col_index_None in Hd. rewrite Hd, lookup_insert_eq.
    by rewrite Nat.add_0_r.
  - destruct (col_index c ds) as [i|]; simpl.
    + f_equal. f_equal. lia.
    + by rewrite lookup_insert_ne.
Qed.

Lemma dtypes_lookup df c i :
  NoDup (columns df) → col_index c (columns df) = Some i →
  dtypes df !! c = Some (dtype_of (cell_at i <$> rows df)).
Proof.
  intros Hnd Hi. unfold dtypes.
  rewrite (dtypes_from_lookup (λ j, dtype_of (cell_at j <$> rows df))) by done.
  by rewrite Hi.
Qed.

(** C8 (amended). [validate_data] reports a table without the identifier
    column as invalid, with an error; a table with rows, columns and the
    identifier column is valid and without error whether or not identifiers
    repeat, repeated identifiers giving one warning; and for every table
    with rows and columns [info] holds the five entries: number of rows,
    number of columns, number of null cells, number of repeated rows, and
    the type of every column.  For a table without rows or without columns
    the function returns at once: invalid, one error, no entry in [info]. *)
Theorem validate_data_results (df : DataFrame) :
  let res := validate_data df in
  let repeated := count_true (duplicated cell_eqb (ids df)) in
  (has_column "REGISTRY ID" df = false → is_valid res = false ∧ errors res ≠ [])
  ∧ (empty df = false → has_column "REGISTRY ID" df = true →
       is_valid res = true ∧ errors res = []
       ∧ warnings res = if (0 <? repeated)%nat then [DuplicateRegistryIds repeated] else [])
  ∧ (empty df = false →
       info res !! "total_rows" = Some (InfoCount (len df))
       ∧ info res !! "total_columns" = Some (InfoCount (length (columns df)))
       ∧ info res !! "missing_values"
         = Some (InfoCount (length (List.filter isna (concat (rows df)))))
       ∧ info res !! "duplicate_rows"
         = Some (InfoCount (count_true (duplicated row_eqb (rows df))))
       ∧ info res !! "column_types" = Some (InfoTypes (dtypes df))
       ∧ (NoDup (columns df) → ∀ c i, col_index c (columns df) = Some i →
            dtypes df !! c = Some (dtype_of (cell_at i <$> rows df))))
  ∧ (empty df = true → res = mkResults false [DataFrameIsEmpty] [] ∅).
Proof.
  intros res repeated. subst res repeated. unfold validate_data, ids.
  destruct (empty df) eqn:Hempty; simpl.
  - by split_and!.
  - destruct (has_column "REGISTRY ID" df) eqn:Hid; simpl;
      [destruct (0 <? count_true _)%nat; simpl|];
      (split_and!; try done; intros; split_and!; try done;
       intros; by apply dtypes_lookup).
Qed.

End Validation.

Lemma validate_data_results_witness :
  Utils.is_valid (Utils.validate_data Sample.repeated_patients) = true
  ∧ Utils.warnings (Utils.validate_data Sample.repeated_patients)
    = [Utils.DuplicateRegistryIds 1]
  ∧ Utils.info (Utils.validate_data Sample.repeated_patients) !! "total_rows"
    = Some (Utils.InfoCount 2).
Proof.
  destruct (validate_data_results Sample.repeated_patients) as (_ & H2 & H3 & _).
  destruct H2 as (Hv & _ & Hw); [reflexivity..|].
  destruct H3 as (Hrows & _); [reflexivity|].
  split_and!; [exact Hv|exact Hw|exact Hrows].
Defined.

(** For a table without rows [info] has no entry at all. *)
Lemma validate_data_info_counterexample :
  ¬ (∀ df, is_Some (Utils.info (Utils.validate_data df) !! "total_rows"))
  ∧ Utils.validate_data no_rows
    = Utils.mkResults false [Utils.DataFrameIsEmpty] [] ∅.
Proof.
  split; [|reflexivity].
  intros H. destruct (H no_rows) as [v Hv]. discriminate Hv.
Qed.

(** ** The summary report *)

Section Summary.

Import App.

Lemma cell_eqb_refl a : cell_eqb a a = true.
Proof.
  destruct a; simpl; try done; [apply Qeq_bool_refl..|apply String.eqb_refl].
Qed.

Lemma cell_eqb_sym a b : cell_eqb a b = cell_eqb b a.
Proof.
  destruct a, b; simpl; try done; try apply Qeq_bool_comm. apply String.eqb_sym.
Qed.

Lemma filter_elem {A} (P : A → bool) (l : list A) x :
  x ∈ List.filter P l ↔ x ∈ l ∧ P x = true.
Proof. rewrite !list_elem_of_In. apply filter_In. Qed.

Lemma unique_elem x l : x ∈ unique l → x ∈ l.
Proof.
  revert x. induction l as [|a l IH]; intros x; [done|]. cbn [unique].
  intros [->|[H _]%filter_elem]%elem_of_cons.
  - apply list_elem_of_here.
  - apply list_elem_of_further. by apply IH.
Qed.

Lemma unique_covers x l :
  x ∈ l → existsb (λ y, cell_eqb y x) (unique l) = true.
Proof.
  induction l as [|a l IH]; [by intros ?%elem_of_nil|]. cbn [unique existsb].
  intros [->|Hx]%elem_of_cons; [by rewrite cell_eqb_refl|].
  destruct (cell_eqb a x) eqn:Ea; [done|]. simpl.
  apply IH, existsb_exists in Hx as (y & Hy & Hyx).
  apply existsb_exists. exists y. split; [|done].
  apply filter_In. split; [done|].
  destruct (cell_eqb a y) eqn:Eay; [|done].
  rewrite (cell_eqb_congr a y x Eay) in Ea. congruence.
Qed.

Lemma ForallOrdPairs_filter {A} (R : A → A → Prop) (P : A → bool) l :
  ForallOrdPairs R l → ForallOrdPairs R (List.filter P l).
Proof.
  induction 1 as [|a l Ha Hl IH]; simpl; [constructor|].
  destruct (P a); [|done]. constructor; [|done].
  rewrite List.Forall_forall in Ha |- *. intros y [Hy _]%filter_In. by apply Ha.
Qed.

Lemma unique_distinct l :
  ForallOrdPairs (λ x y, cell_eqb x y = false) (unique l).
Proof.
  induction l as [|a l IH]; cbn [unique]; constructor.
  - apply List.Forall_forall. intros y [_ Hy]%filter_In.
    by apply negb_true_iff in Hy.
  - by apply ForallOrdPairs_filter.
Qed.

Lemma unique_of_distinct l :
  forallb (λ x, (count_cell x l =? 1)%nat) l = true → unique l = l.
Proof.
  induction l as [|a l IH]; [done|]. intros H. cbn [unique].
  assert (∀ y, y ∈ l → cell_eqb a y = false) as Ha.
  { intros y Hy. simpl in H. apply andb_true_iff in H as [H _].
    apply Nat.eqb_eq in H. unfold count_cell in H. simpl in H.
    rewrite cell_eqb_refl in H. simpl in H.
    destruct (cell_eqb a y) eqn:E; [|done]. exfalso.
    assert (In y (List.filter (cell_eqb a) l)) as Hin
      by (apply filter_In; split; [by apply list_elem_of_In|done]).
    destruct (List.filter (cell_eqb a) l); [done|]. simpl in H. lia. }
  rewrite IH.
  - f_equal. apply filter_all_elem. intros y Hy. by rewrite (Ha y Hy).
  - apply forallb_forall. intros x Hx.
    simpl in H. apply andb_true_iff in H as [_ H].
    rewrite forallb_forall in H. specialize (H x Hx). simpl in H.
    unfold count_cell in H |- *. simpl in H.
    rewrite cell_eqb_sym, (Ha x) in H by (by apply list_elem_of_In). done.
Qed.

(** The first cell of a list that is no null: either all cells before it
    are null, or all cells are null and there is none. *)
Lemma first_valid_first l :
  (first_valid l = CNull ∧ Forall (λ c, isna c = true) l)
  ∨ (notna (first_valid l) = true
     ∧ ∃ before after, l = before ++ first_valid l :: after
                       ∧ Forall (λ c, isna c = true) before).
Proof.
  unfold first_valid. induction l as [|c l IH]; simpl.
  - left. by split.
  - destruct (notna c) eqn:E; simpl.
    + right. split; [done|]. by exists [], l.
    + apply negb_false_iff in E.
      destruct IH as [[H1 H2]|(H1 & b & a & H2 & H3)].
      * left. split; [done|]. by constructor.
      * right. split; [done|]. exists (c :: b), a. split; [by rewrite H2 at 1|].
        by constructor.
Qed.

Lemma first_valid_occurrence l :
  notna (first_occurrence l) = true ∨ Forall (λ c, isna c = true) l →
  first_valid l = first_occurrence l.
Proof.
  unfold first_valid, first_occurrence. intros [H|H].
  - destruct l as [|c l]; simpl in *; [done|]. by rewrite H.
  - assert (List.filter notna l = []) as ->.
    { induction H as [|c l Hc Hl IH]; simpl; [done|].
      unfold notna at 1. by rewrite Hc. }
    destruct H as [|c l Hc _]; simpl; [done|]. by destruct c.
Qed.

Lemma groupby_first_cells col df firsts :
  groupby_first "REGISTRY ID" col df = Some firsts →
  firsts = (λ k, (k, first_valid (cells_of col df k))) <$> distinct_ids df.
Proof.
  unfold groupby_first, distinct_ids, cells_of, id_of, ids, column.
  destruct (col_index "REGISTRY ID" (columns df)) as [i|]; simpl; [|done].
  destruct (col_index col (columns df)) as [j|]; simpl; [|done].
  by intros [= <-].
Qed.

Lemma value_counts_entry g n l :
  (g, n) ∈ value_counts l →
  notna g = true ∧ g ∈ l ∧ n = count_cell g (List.filter notna l).
Proof.
  unfold value_counts. intros (v & [= -> ->] & Hv)%list_elem_of_fmap.
  apply unique_elem, filter_elem in Hv as [H1 H2]. done.
Qed.

Lemma omap_after_fmap {A B C} (f : A → B) (g : B → option C) (l : list A) :
  omap g (f <$> l) = omap (λ x, g (f x)) l.
Proof.
  induction l as [|x l IH]; [done|]. rewrite fmap_cons. cbn [omap list_omap].
  by rewrite IH.
Qed.

(** C9 (amended). The report divides the count of each gender by the
    number of rows of the patient table, which is the number of distinct
    patients when the identifier column has neither a null nor a repeated
    value.  The genders counted and the ages behind mean, minimum and
    maximum are one value per distinct identifier of the merged table: the
    first value of that identifier that is not null, which is its first
    occurrence when that one is not null or when all its values are null;
    an identifier without such an age adds nothing to the age figures. *)
Theorem summary_report_statistics merged patient diagnosis report :
  generate_summary_report merged patient diagnosis = inr report →
  has_column "GENDER" merged = true →
  has_column "AGE" merged = true →
  let gender_of k := first_valid (cells_of "GENDER" merged k) in
  let age_of k := first_valid (cells_of "AGE" merged k) in
  let ages := omap (λ k, num_of_cell (age_of k)) (distinct_ids merged) in
  gender_distribution report
  = Some ((λ gc : cell * nat, (gc.1, gc.2, (Qnat gc.2 / Qnat (len patient) * 100)%Q))
            <$> value_counts (gender_of <$> distinct_ids merged))
  ∧ (∀ g n, (g, n) ∈ value_counts (gender_of <$> distinct_ids merged) →
       n = count_cell g (List.filter notna (gender_of <$> distinct_ids merged)))
  ∧ age_statistics report = Some (mkAgeStats (mean ages) (minimum ages) (maximum ages))
  ∧ ForallOrdPairs (λ x y, cell_eqb x y = false) (distinct_ids merged)
  ∧ (∀ k, k ∈ ids merged → notna k = true →
       existsb (λ y, cell_eqb y k) (distinct_ids merged) = true)
  ∧ (∀ k, let l := cells_of "AGE" merged k in
          (age_of k = CNull ∧ Forall (λ c, isna c = true) l)
          ∨ (notna (age_of k) = true
             ∧ ∃ before after, l = before ++ age_of k :: after
                               ∧ Forall (λ c, isna c = true) before))
  ∧ (∀ k, let l := cells_of "AGE" merged k in
          notna (first_occurrence l) = true ∨ Forall (λ c, isna c = true) l →
          age_of k = first_occurrence l)
  ∧ (has_column "REGISTRY ID" patient = true →
     ids_unique patient = true →
     forallb notna (ids patient) = true →
     len patient = distinct_patient_count patient).
Proof.
  intros Hrep Hg Ha gender_of age_of ages.
  unfold generate_summary_report in Hrep.
  destruct (len patient =? 0)%nat; [done|].
  unfold gender_section, age_section in Hrep. rewrite Hg, Ha in Hrep.
  destruct (groupby_first "REGISTRY ID" "GENDER" merged) as [fg|] eqn:Efg; [|done].
  destruct (groupby_first "REGISTRY ID" "AGE" merged) as [fa|] eqn:Efa; [|done].
  apply groupby_first_cells in Efg, Efa.
  destruct (existsb is_text fa.*2) eqn:Etext; [done|].
  injection Hrep as <-. simpl.
  assert (fg.*2 = gender_of <$> distinct_ids merged) as ->.
  { rewrite Efg, <- list_fmap_compose. done. }
  assert (fa.*2 = (λ k, age_of k) <$> distinct_ids merged) as ->.
  { rewrite Efa, <- list_fmap_compose. done. }
  split_and!.
  - done.
  - intros g n H. by apply value_counts_entry in H as (_ & _ & ->).
  - subst ages. by rewrite omap_after_fmap.
  - apply unique_distinct.
  - intros k Hk Hn. apply unique_covers. by apply filter_elem.
  - intros k. apply first_valid_first.
  - intros k. apply first_valid_occurrence.
  - intros Hid Hu Hnn. unfold distinct_patient_count, distinct_ids.
    rewrite filter_all_elem by (intros y Hy; rewrite forallb_forall in Hnn;
                                 by apply Hnn, list_elem_of_In).
    rewrite unique_of_distinct by done.
    apply has_column_true, column_is_Some in Hid as [vs Hvs].
    unfold ids. rewrite Hvs. simpl. symmetry. by eapply column_length.
Qed.

End Summary.

Lemma summary_report_statistics_witness :
  ∃ report,
    App.generate_summary_report Sample.merged Sample.patients Sample.diagnoses = inr report
    ∧ App.gender_distribution report = Some [(CStr "MALE", 1%nat, 100%Q)]
    ∧ len Sample.patients = distinct_patient_count Sample.patients.
Proof.
  eexists. split; [reflexivity|].
  destruct (summary_report_statistics Sample.merged Sample.patients Sample.diagnoses _
              eq_refl eq_refl eq_refl) as (H1 & _ & _ & _ & _ & _ & _ & H8).
  split; [exact H1|]. apply H8; reflexivity.
Defined.

(** With A1 listed twice in the patient sheet, first without an age: each
    gender is counted once and divided by 3 rows, not by 2 patients, and
    the mean age is 30, from the second row of A1, where the first
    occurrences alone give 20. *)
Lemma summary_report_counterexample :
  Sample.process Sample.twice_listed_book
  = (inr (Sample.twice_listed_patients, Sample.diagnoses, Sample.twice_listed_merged),
     [InfoAgeColumn;
      InfoGenderMapping [(CStr "MALE", 2%nat); (CStr "FEMALE", 1%nat)];
      InfoGenderColumnRenamed "SEX"; InfoMergeCompleted 3 2])
  ∧ ∃ report,
      App.generate_summary_report Sample.twice_listed_merged Sample.twice_listed_patients
                                  Sample.diagnoses = inr report
      ∧ App.gender_distribution report
        = Some [(CStr "MALE", 1%nat, (100 # 3)%Q); (CStr "FEMALE", 1%nat, (100 # 3)%Q)]
      ∧ distinct_patient_count Sample.twice_listed_patients = 2%nat
      ∧ ¬ (100 # 3 == App.Qnat 1 / App.Qnat 2 * 100)%Q
      ∧ (∃ a, App.average_age <$> App.age_statistics report = Some (Some a) ∧ (a == 30)%Q)
      ∧ (∃ b, App.mean (first_occurrence_ages Sample.twice_listed_merged) = Some b
              ∧ (b == 20)%Q).
Proof.
  split; [reflexivity|]. eexists. split; [reflexivity|].
  split_and!; try reflexivity.
  - discriminate.
  - eexists. split; reflexivity.
  - eexists. split; reflexivity.
Qed.

(** ** Identifiers after validation *)

Section Validated.

Import PyStr DataProcessor.

Variable repr_float : Q → string.
Variable parse_number : string → option Q.
Variable to_datetime : list cell → option (list cell).

Lemma dropna_other_label cols (r : list cell) n :
  n ∉ cols →
  forallb (λ cv : string * cell, implb (bool_decide (cv.1 ∈ [n])) (notna cv.2)) (zip cols r)
  = true.
Proof.
  intros Hn. apply forallb_forall. intros [c v] Hin. simpl.
  apply list_elem_of_In, elem_of_zip_l in Hin. simpl in Hin.
  rewrite bool_decide_eq_false_2; [done|].
  intros ->%list_elem_of_singleton. done.
Qed.

Lemma dropna_row_test cols (r : list cell) n i :
  NoDup cols → col_index n cols = Some i → length r = length cols →
  forallb (λ cv : string * cell, implb (bool_decide (cv.1 ∈ [n])) (notna cv.2)) (zip cols r)
  = notna (cell_at i r).
Proof.
  intros Hnd. revert r i. induction Hnd as [|c cs Hc Hnd IH]; intros r i; [done|].
  destruct r as [|v vs]; [done|]. cbn [col_index zip zip_with forallb length].
  intros Hi [= Hl]. destruct (String.eqb_spec c n) as [->|Hne].
  - injection Hi as <-. rewrite dropna_other_label by done.
    rewrite bool_decide_eq_true_2 by apply list_elem_of_here.
    unfold cell_at. simpl. by rewrite andb_true_r.
  - destruct (col_index n cs) as [k|] eqn:E; simplify_eq/=.
    rewrite bool_decide_eq_false_2; [|by intros ->%list_elem_of_singleton].
    simpl. change (cell_at (S k) (v :: vs)) with (cell_at k vs). by apply IH.
Qed.

Lemma dropna_subset_rectangular names df :
  rectangular df = true → rectangular (dropna_subset names df) = true.
Proof.
  rewrite !rectangular_Forall. simpl. intros H.
  apply Forall_forall. intros r [Hr _]%filter_elem.
  rewrite Forall_forall in H. by apply H.
Qed.

Lemma dropna_subset_ids df :
  rectangular df = true → NoDup (columns df) →
  ids (dropna_subset ["REGISTRY ID"] df) = List.filter notna (ids df).
Proof.
  intros Hr Hnd. unfold ids, column. simpl.
  destruct (col_index "REGISTRY ID" (columns df)) as [i|] eqn:Hi; [|done]. simpl.
  apply rectangular_Forall in Hr.
  induction Hr as [|r rs Hlen Hrs IH]; [done|].
  rewrite fmap_cons. cbn [List.filter].
  rewrite (dropna_row_test _ _ _ i) by done.
  destruct (notna (cell_at i r)); [rewrite fmap_cons|]; by rewrite IH.
Qed.

Lemma ids_apply_astype df :
  rectangular df = true →
  ids (apply_column "REGISTRY ID" (astype_str repr_float) df)
  = astype_str repr_float <$> ids df.
Proof.
  intros Hr. unfold ids. rewrite apply_column_same by done.
  by destruct (column "REGISTRY ID" df).
Qed.

(** A step that rewrites and relabels a column other than the identifier
    column keeps the shape of the table and its identifiers. *)
Lemma relabel_keeps_ids a new f df :
  rectangular df = true → a ≠ "REGISTRY ID" → new ≠ "REGISTRY ID" →
  rectangular (rename a new (apply_column a f df)) = true
  ∧ len (rename a new (apply_column a f df)) = len df
  ∧ ids (rename a new (apply_column a f df)) = ids df.
Proof.
  intros Hr Ha Hn. split_and!.
  - by apply rename_rectangular, apply_column_rectangular.
  - by rewrite rename_len, apply_column_len.
  - unfold ids. by rewrite rename_column_other, apply_column_other.
Qed.

Lemma process_age_column_keeps_ids df :
  rectangular df = true →
  ∃ df' log, process_age_column parse_number df = (inr df', log)
             ∧ rectangular df' = true ∧ len df' = len df ∧ ids df' = ids df.
Proof.
  intros Hr. rewrite process_age_column_eq by done.
  destruct (select_age_column (columns df)) as [a|] eqn:Ea; [|by eexists _, _].
  apply select_age_column_elem in Ea as (_ & Ha & _).
  eexists _, _. split; [done|]. by apply relabel_keeps_ids.
Qed.

Lemma process_gender_column_eq df :
  rectangular df = true →
  process_gender_column repr_float df
  = match head (List.filter is_gender_label (columns df)) with
    | None => (inr df, [])
    | Some g =>
        let df' := apply_column g (normalize_gender repr_float) df in
        (inr (rename g "GENDER" df'),
         InfoGenderMapping (value_counts (default [] (column g df')))
         :: if String.eqb g "GENDER" then [] else [InfoGenderColumnRenamed g])
    end.
Proof.
  intros Hr. unfold process_gender_column. fold is_gender_label.
  destruct (List.filter is_gender_label (columns df)) as [|g gs]; [done|].
  rewrite apply_column_compose by done. simpl.
  destruct (String.eqb_spec g "GENDER") as [->|Hne]; simpl.
  - by rewrite rename_same.
  - done.
Qed.

Lemma process_gender_column_keeps_ids df :
  rectangular df = true →
  ∃ df' log, process_gender_column repr_float df = (inr df', log)
             ∧ rectangular df' = true ∧ len df' = len df ∧ ids df' = ids df.
Proof.
  intros Hr. rewrite process_gender_column_eq by done.
  destruct (head (List.filter is_gender_label (columns df))) as [g|] eqn:Eg;
    [|by eexists _, _].
  apply head_filter_Some in Eg as [Hg _].
  eexists _, _. split; [done|]. apply relabel_keeps_ids; [done| |done].
  intros ->. discriminate Hg.
Qed.

Lemma set_column_keeps_ids col vs df :
  rectangular df = true → col ≠ "REGISTRY ID" →
  rectangular (set_column col vs df) = true
  ∧ len (set_column col vs df) = len df
  ∧ ids (set_column col vs df) = ids df.
Proof.
  intros Hr Hc. split_and!.
  - by apply set_column_rectangular.
  - apply set_column_len.
  - unfold ids. by rewrite set_column_other.
Qed.

Lemma process_date_columns_keeps_ids df :
  rectangular df = true →
  rectangular (process_date_columns to_datetime df) = true
  ∧ len (process_date_columns to_datetime df) = len df
  ∧ ids (process_date_columns to_datetime df) = ids df.
Proof.
  intros Hr. unfold process_date_columns.
  apply (foldl_invariant
           (λ d, rectangular d = true ∧ len d = len df ∧ ids d = ids df)); [done|].
  intros d col [_ Hcol]%filter_elem (Hd & Hl & Hi).
  destruct (column col d) as [vs|]; [|done].
  destruct (to_datetime vs) as [vs'|]; [|done].
  destruct (set_column_keeps_ids col vs' d Hd) as (H1 & H2 & H3).
  { intros ->. discriminate Hcol. }
  split_and!; congruence.
Qed.

Lemma process_diagnosis_columns_keeps_ids df :
  rectangular df = true →
  rectangular (process_diagnosis_columns repr_float df) = true
  ∧ len (process_diagnosis_columns repr_float df) = len df
  ∧ ids (process_diagnosis_columns repr_float df) = ids df.
Proof.
  intros Hr. unfold process_diagnosis_columns.
  apply (foldl_invariant
           (λ d, rectangular d = true ∧ len d = len df ∧ ids d = ids df)); [done|].
  intros d col [_ Hcol]%filter_elem (Hd & Hl & Hi).
  assert (col ≠ "REGISTRY ID") as Hne by (intros ->; discriminate Hcol).
  split_and!.
  - by do 2 apply apply_column_rectangular.
  - by rewrite !apply_column_len.
  - unfold ids. rewrite !apply_column_other by done. exact Hi.
Qed.

Lemma ids_length df : has_column "REGISTRY ID" df = true → length (ids df) = len df.
Proof.
  intros [vs Hvs]%has_column_true%column_is_Some. unfold ids. rewrite Hvs.
  by eapply column_length.
Qed.


End Validated.


(** ** Cleaning a sheet *)

Section Cleaning.

Import PyStr DataProcessor.

Lemma select_by_mask_cons {A} b m (x : A) l :
  select_by_mask (b :: m) (x :: l)
  = if b then x :: select_by_mask m l else select_by_mask m l.
Proof. by destruct b. Qed.

Lemma select_by_mask_nil {A} m : select_by_mask m (@nil A) = [].
Proof. by destruct m. Qed.

Lemma select_lookup {A} m (l : list A) k :
  select_by_mask m l !! k = nth_true m k ≫= (λ j, l !! j).
Proof.
  revert l k. induction m as [|b m IH]; intros l k; [done|].
  destruct l as [|x l].
  - rewrite select_by_mask_nil. simpl.
    destruct b; [destruct k|]; simpl; rewrite ?lookup_nil; try done;
      by destruct (nth_true m _).
  - rewrite select_by_mask_cons. destruct b; simpl.
    + destruct k as [|k]; [done|]. simpl. rewrite IH. by destruct (nth_true m k).
    + rewrite IH. by destruct (nth_true m k).
Qed.

Lemma nth_true_Some m k j : nth_true m k = Some j → m !! j = Some true.
Proof.
  revert k j. induction m as [|b m IH]; intros k j; [done|]. simpl.
  destruct b.
  - destruct k as [|k]; [by intros [= <-]|].
    destruct (nth_true m k) as [i|] eqn:E; [|done]. intros [= <-]. by eapply IH.
  - destruct (nth_true m k) as [i|] eqn:E; [|done]. intros [= <-]. by eapply IH.
Qed.

Lemma nth_true_exists m j : m !! j = Some true → ∃ k, nth_true m k = Some j.
Proof.
  revert j. induction m as [|b m IH]; intros j; [done|].
  destruct j as [|j]; simpl.
  - intros [= ->]. by exists 0%nat.
  - intros [k Hk]%IH. destruct b.
    + exists (S k). by rewrite Hk.
    + exists k. by rewrite Hk.
Qed.

Lemma select_length_eq {A B} m (l : list A) (l' : list B) :
  length l = length l' → length (select_by_mask m l) = length (select_by_mask m l').
Proof.
  revert l l'. induction m as [|b m IH]; intros [|x l] [|y l'] Hl; simplify_eq/=;
    rewrite ?select_by_mask_nil; try done.
  rewrite !select_by_mask_cons. destruct b; simpl; by rewrite (IH l l').
Qed.

Lemma cell_at_select m (r : list cell) k :
  cell_at k (select_by_mask m r)
  = match nth_true m k with Some j => cell_at j r | None => CNull end.
Proof. unfold cell_at. rewrite select_lookup. by destruct (nth_true m k). Qed.

Local Abbreviation nonempty_rows df := (List.filter (existsb notna) (rows df)).
Local Abbreviation keep_mask df :=
  ((λ j, existsb (λ r, notna (cell_at j r)) (nonempty_rows df))
     <$> seq 0 (length (columns df))).
Local Abbreviation base_labels df :=
  ((λ col, upper (strip col)) <$> select_by_mask (keep_mask df) (columns df)).

Lemma clean_dataframe_eq df :
  clean_dataframe df
  = let d := mkFrame (base_labels df)
                     (select_by_mask (keep_mask df) <$> nonempty_rows df) in
    match List.filter is_registry_label (base_labels df) with
    | first :: _ =>
        if negb (has_column "REGISTRY ID" d) then rename first "REGISTRY ID" d else d
    | [] => d
    end.
Proof. reflexivity. Qed.

Lemma clean_dataframe_rows df :
  rows (clean_dataframe df) = select_by_mask (keep_mask df) <$> nonempty_rows df.
Proof.
  rewrite clean_dataframe_eq. cbv zeta.
  destruct (List.filter is_registry_label (base_labels df)); [done|].
  by destruct (negb _).
Qed.

Lemma clean_dataframe_columns df :
  (columns (clean_dataframe df) = (base_labels df)
   ∧ (List.filter is_registry_label (base_labels df) = []
      ∨ "REGISTRY ID" ∈ (base_labels df)))
  ∨ (∃ first,
       head (List.filter is_registry_label (base_labels df)) = Some first
       ∧ ("REGISTRY ID" ∉ base_labels df)
       ∧ columns (clean_dataframe df)
         = (λ c, if String.eqb c first then "REGISTRY ID" else c) <$> (base_labels df)).
Proof.
  rewrite clean_dataframe_eq. cbv zeta.
  destruct (List.filter is_registry_label (base_labels df)) as [|first rest] eqn:E.
  - left. auto.
  - unfold has_column. cbn [columns]. case_bool_decide as Hid; cbn [negb].
    + left. auto.
    + right. exists first. done.
Qed.

Lemma trimmed_upper_of s : trimmed_upper (upper (strip s)).
Proof. split; [apply strip_upper_strip|apply upper_idem]. Qed.

(** X1. Every label of a cleaned sheet is trimmed and in upper case. *)
Theorem clean_dataframe_labels (df : DataFrame) :
  Forall trimmed_upper (columns (clean_dataframe df)).
Proof.
  assert (Forall trimmed_upper (base_labels df)) as Hbase.
  { apply Forall_fmap, Forall_true. intros c. apply trimmed_upper_of. }
  destruct (clean_dataframe_columns df) as [[-> _]|(first & _ & _ & ->)]; [done|].
  apply Forall_fmap. eapply Forall_impl; [exact Hbase|]. simpl.
  intros c Hc. by destruct (String.eqb c first).
Qed.

Lemma existsb_elem {A} (P : A → bool) (l : list A) :
  existsb P l = true ↔ ∃ x, x ∈ l ∧ P x = true.
Proof. rewrite existsb_exists. by setoid_rewrite list_elem_of_In. Qed.

Lemma filter_nil_existsb {A} (P : A → bool) (l : list A) :
  List.filter P l = [] → existsb P l = false.
Proof.
  intros E. apply not_true_iff_false. intros (x & Hx & HP)%existsb_elem.
  assert (x ∈ List.filter P l) as Hin by by apply filter_elem.
  rewrite E in Hin. by apply elem_of_nil in Hin.
Qed.

(** X2. A cleaned sheet has the column "REGISTRY ID" exactly when one of
    its labels contains one of the words REGISTRY, ID, PATIENT_ID or
    PATIENTID: the first such column of a sheet without an identifier column
    is the one that was given the label. *)
Theorem clean_dataframe_identifier (df : DataFrame) :
  has_column "REGISTRY ID" (clean_dataframe df)
  = existsb is_registry_label (columns (clean_dataframe df)).
Proof.
  unfold has_column.
  destruct (clean_dataframe_columns df)
    as [[-> [Hnone|Hid]]|(first & Hfirst & Hno & ->)].
  - rewrite (filter_nil_existsb _ _ Hnone). apply bool_decide_eq_false_2.
    intros Hin. assert ("REGISTRY ID" ∈ List.filter is_registry_label (base_labels df))
      as Hf by by apply filter_elem.
    rewrite Hnone in Hf. by apply elem_of_nil in Hf.
  - rewrite bool_decide_eq_true_2 by done. symmetry. apply existsb_elem. eauto.
  - apply head_filter_Some in Hfirst as [_ Hin].
    assert ("REGISTRY ID" ∈ (λ c, if String.eqb c first then "REGISTRY ID" else c)
                              <$> base_labels df) as Hid.
    { apply list_elem_of_fmap. exists first. by rewrite String.eqb_refl. }
    rewrite bool_decide_eq_true_2 by done. symmetry. apply existsb_elem. eauto.
Qed.

Lemma keep_mask_lookup df j :
  keep_mask df !! j = Some true →
  ∃ r, r ∈ nonempty_rows df ∧ notna (cell_at j r) = true.
Proof.
  rewrite list_lookup_fmap. destruct (seq 0 (length (columns df)) !! j) as [i|] eqn:E;
    [|done].
  apply lookup_seq in E as [-> _]. simpl. intros [= H]. by apply existsb_elem in H.
Qed.

Lemma keep_mask_true df r j :
  rectangular df = true → r ∈ nonempty_rows df → notna (cell_at j r) = true →
  keep_mask df !! j = Some true.
Proof.
  intros Hr Hin Hn. rewrite list_lookup_fmap.
  assert (j < length (columns df))%nat as Hj.
  { apply filter_elem in Hin as [Hin _]. apply rectangular_Forall in Hr.
    rewrite Forall_forall in Hr. rewrite <- (Hr r Hin).
    unfold cell_at in Hn. destruct (r !! j) eqn:E; [|done].
    by apply lookup_lt_Some in E. }
  rewrite lookup_seq_lt by done. simpl. f_equal. apply existsb_elem. eauto.
Qed.

Lemma clean_dataframe_width df :
  length (columns (clean_dataframe df))
  = length (select_by_mask (keep_mask df) (columns df)).
Proof.
  destruct (clean_dataframe_columns df) as [[-> _]|(first & _ & _ & ->)];
    by rewrite !length_fmap.
Qed.

Lemma nonempty_rows_length df r :
  rectangular df = true → r ∈ nonempty_rows df → length r = length (columns df).
Proof.
  intros Hr [Hin _]%filter_elem. apply rectangular_Forall in Hr.
  rewrite Forall_forall in Hr. by apply Hr.
Qed.

Lemma clean_dataframe_rectangular df :
  rectangular df = true → rectangular (clean_dataframe df) = true.
Proof.
  intros Hr. apply rectangular_Forall.
  rewrite clean_dataframe_rows, clean_dataframe_width.
  apply Forall_fmap, Forall_forall. intros r Hin. simpl.
  apply select_length_eq. by apply nonempty_rows_length.
Qed.

Lemma clean_dataframe_column_not_all_null df k :
  (k < length (columns (clean_dataframe df)))%nat →
  existsb (λ r, notna (cell_at k r)) (rows (clean_dataframe df)) = true.
Proof.
  intros Hk. rewrite clean_dataframe_width in Hk.
  destruct (select_by_mask (keep_mask df) (columns df) !! k) as [c|] eqn:E;
    [|apply lookup_ge_None in E; lia].
  rewrite select_lookup in E.
  destruct (nth_true (keep_mask df) k) as [j|] eqn:Ej; [|done].
  pose proof (nth_true_Some _ _ _ Ej) as Hm.
  apply keep_mask_lookup in Hm as (r & Hin & Hn).
  rewrite clean_dataframe_rows. apply existsb_elem.
  exists (select_by_mask (keep_mask df) r). split.
  - apply list_elem_of_fmap. eauto.
  - by rewrite cell_at_select, Ej.
Qed.

(** X3. Cleaning a rectangular sheet gives a rectangular table with the
    rows of the sheet that have a cell that is not null, in which no row and
    no column is all null. *)
Theorem clean_dataframe_no_empty_row_or_column (df : DataFrame) :
  rectangular df = true →
  rectangular (clean_dataframe df) = true
  ∧ len (clean_dataframe df) = length (List.filter (existsb notna) (rows df))
  ∧ Forall (λ r, existsb notna r = true) (rows (clean_dataframe df))
  ∧ (∀ k, (k < length (columns (clean_dataframe df)))%nat →
          existsb (λ r, notna (cell_at k r)) (rows (clean_dataframe df)) = true).
Proof.
  intros Hr. split_and!.
  - by apply clean_dataframe_rectangular.
  - unfold len. by rewrite clean_dataframe_rows, length_fmap.
  - rewrite clean_dataframe_rows. apply Forall_fmap, Forall_forall.
    intros r Hin. simpl. pose proof Hin as [_ Hex]%filter_elem.
    apply existsb_elem in Hex as (v & Hv & Hn).
    apply list_elem_of_lookup in Hv as [j Hj].
    assert (notna (cell_at j r) = true) as Hc by (unfold cell_at; by rewrite Hj).
    destruct (nth_true_exists _ _ (keep_mask_true df r j Hr Hin Hc)) as [k Hk].
    apply existsb_elem. exists v. split; [|done].
    apply list_elem_of_lookup. exists k. rewrite select_lookup, Hk. done.
  - apply clean_dataframe_column_not_all_null.
Qed.

End Cleaning.

Lemma clean_dataframe_no_empty_row_or_column_witness :
  rectangular (DataProcessor.clean_dataframe
                 (mkFrame [" id "; "note"; "age"]
                          [[CInt 7; CNull; CStr "40"]; [CNull; CNull; CNull]])) = true
  ∧ len (DataProcessor.clean_dataframe
           (mkFrame [" id "; "note"; "age"]
                    [[CInt 7; CNull; CStr "40"]; [CNull; CNull; CNull]])) = 1%nat.
Proof.
  destruct (clean_dataframe_no_empty_row_or_column
              (mkFrame [" id "; "note"; "age"]
                       [[CInt 7; CNull; CStr "40"]; [CNull; CNull; CNull]]))
    as (H1 & H2 & _); [reflexivity|].
  split; [exact H1|exact H2].
Defined.

(** ** More on the join *)

Section JoinOutcomes.

Import DataProcessor.

Lemma join_row_nonempty i j R w l : join_row i j R w l ≠ [].
Proof.
  intros E. pose proof (join_row_length i j R w l) as H. rewrite E in H.
  simpl in H. lia.
Qed.

Lemma has_column_index name df :
  has_column name df = true ↔ is_Some (col_index name (columns df)).
Proof.
  rewrite has_column_true. split; [apply col_index_elem|].
  intros [i Hi]. apply dec_stable. intros Hn%col_index_None. congruence.
Qed.

Lemma has_column_false name df :
  has_column name df = false ↔ col_index name (columns df) = None.
Proof.
  rewrite <- not_true_iff_false, has_column_index, <- eq_None_not_Some. done.
Qed.

(** The three ways [_merge_data] can end. *)
Lemma merge_data_cases patient_data diagnosis_data :
  ((has_column "REGISTRY ID" patient_data = false
    ∨ has_column "REGISTRY ID" diagnosis_data = false)
   ∧ merge_data patient_data diagnosis_data
     = (inl (ErrorMergingData (KeyError "REGISTRY ID")), []))
  ∨ (has_column "REGISTRY ID" patient_data = true
     ∧ has_column "REGISTRY ID" diagnosis_data = true
     ∧ ((rows diagnosis_data = []
         ∧ merge_data patient_data diagnosis_data
           = (inl (ErrorMergingData NoMatchingRecords), []))
        ∨ (rows diagnosis_data ≠ []
           ∧ ∃ m matched,
               merge_data patient_data diagnosis_data
               = (inr m, [InfoMergeCompleted matched (len diagnosis_data)])))).
Proof.
  destruct (has_column "REGISTRY ID" diagnosis_data) eqn:Hd.
  2:{ left. split; [by right|]. apply has_column_false in Hd.
      unfold merge_data, merge_left. by rewrite Hd. }
  destruct (has_column "REGISTRY ID" patient_data) eqn:Hp.
  2:{ left. split; [by left|]. apply has_column_false in Hp.
      apply has_column_index in Hd as [i Hi].
      unfold merge_data, merge_left. by rewrite Hi, Hp. }
  right. split_and!; try done.
  pose proof Hd as [i Hi]%has_column_index. pose proof Hp as [j Hj]%has_column_index.
  unfold merge_data, merge_left. rewrite Hi, Hj. simpl. unfold empty. simpl.
  destruct (rows diagnosis_data) as [|l L]; simpl; [by left|]. right. split; [done|].
  destruct (join_row i j (rows patient_data) _ l) as [|r rs] eqn:E;
    [by apply join_row_nonempty in E|].
  simpl. apply has_column_true in Hd.
  destruct (columns diagnosis_data) as [|c cs]; [by apply elem_of_nil in Hd|].
  simpl. by eexists _, _.
Qed.

(** X4. [_merge_data] returns a table exactly when both tables have the
    column "REGISTRY ID" and the diagnosis table has a row; it raises the
    wrapped KeyError exactly when one of the tables lacks the column.  The
    patient table may be without rows, and no identifier need match. *)
Theorem merge_data_outcomes (patient_data diagnosis_data : DataFrame) :
  ((∃ m log, merge_data patient_data diagnosis_data = (inr m, log))
   ↔ has_column "REGISTRY ID" patient_data = true
     ∧ has_column "REGISTRY ID" diagnosis_data = true
     ∧ rows diagnosis_data ≠ [])
  ∧ ((∃ log, merge_data patient_data diagnosis_data
             = (inl (ErrorMergingData (KeyError "REGISTRY ID")), log))
     ↔ has_column "REGISTRY ID" patient_data = false
       ∨ has_column "REGISTRY ID" diagnosis_data = false).
Proof.
  destruct (merge_data_cases patient_data diagnosis_data)
    as [[Hno ->]|(Hp & Hd & [[He ->]|(Hne & m & k & ->)])].
  - split.
    + split; [by intros (? & ? & ?)|]. intros (Hp & Hd & _).
      destruct Hno; congruence.
    + split; [done|]. eauto.
  - split.
    + split; [by intros (? & ? & ?)|]. by intros (_ & _ & ?).
    + split; [by intros [? ?]|]. intros [?|?]; congruence.
  - split.
    + split; [done|]. eauto.
    + split; [by intros [? ?]|]. intros [?|?]; congruence.
Qed.

Lemma join_row_widths i j R w l n nr :
  length l = n → Forall (λ r, length r = nr) R → (j < nr)%nat → w = (nr - 1)%nat →
  Forall (λ r, length r = (n + w)%nat) (join_row i j R w l).
Proof.
  intros Hl HR Hj ->. apply Forall_forall. intros r Hr.
  unfold join_row in Hr.
  destruct (List.filter _ R) as [|p ps] eqn:E.
  - apply list_elem_of_singleton in Hr as ->.
    by rewrite length_app, length_replicate, Hl.
  - apply list_elem_of_fmap in Hr as (q & -> & Hq).
    assert (q ∈ R) as HqR.
    { assert (q ∈ List.filter (λ r, cell_eqb (cell_at i l) (cell_at j r)) R) as H
        by by rewrite E.
      by apply filter_elem in H as [H _]. }
    rewrite Forall_forall in HR. specialize (HR q HqR).
    rewrite length_app, length_delete, Hl, HR; [done|].
    apply lookup_lt_is_Some. lia.
Qed.

Lemma not_elem_of_delete_index name cols j :
  NoDup cols → col_index name cols = Some j → name ∉ delete j cols.
Proof.
  intros Hnd. revert j. induction Hnd as [|c cs Hc Hnd IH]; intros j; [done|].
  cbn [col_index]. destruct (String.eqb_spec c name) as [->|Hne].
  - by intros [= <-].
  - destruct (col_index name cs) as [k|] eqn:E; [|done]. intros [= <-]. simpl.
    apply not_elem_of_cons. split; [done|]. by apply IH.
Qed.

Lemma col_index_fmap_app (f : string → string) name cs rn i :
  f name = name → (∀ c, c ≠ name → f c ≠ name) →
  col_index name cs = Some i → col_index name ((f <$> cs) ++ rn) = Some i.
Proof.
  intros Hf Hother. revert i. induction cs as [|c cs IH]; intros i; [done|].
  rewrite fmap_cons. cbn [app col_index].
  destruct (String.eqb_spec c name) as [->|Hne].
  - intros [= <-]. by rewrite Hf, String.eqb_refl.
  - destruct (String.eqb_spec (f c) name) as [E|_]; [by apply Hother in E|].
    destruct (col_index name cs) as [k|] eqn:E; [|done].
    intros [= <-]. by rewrite (IH k).
Qed.

Lemma suffixed_is_no_identifier c : c +:+ "_DIAG" ≠ "REGISTRY ID".
Proof.
  do 12 (destruct c as [|? c]; [discriminate|]). discriminate.
Qed.

(** X5. The merged table of two rectangular tables is rectangular, with
    the columns of the diagnosis table followed by the columns of the patient
    table other than its identifier column; when the labels of the patient
    table are distinct, the identifier column keeps its label and its
    place. *)
Theorem merge_data_shape (patient_data diagnosis_data merged : DataFrame) log :
  merge_data patient_data diagnosis_data = (inr merged, log) →
  rectangular patient_data = true →
  rectangular diagnosis_data = true →
  rectangular merged = true
  ∧ length (columns merged)
    = (length (columns diagnosis_data) + (length (columns patient_data) - 1))%nat
  ∧ (NoDup (columns patient_data) →
     col_index "REGISTRY ID" (columns merged)
     = col_index "REGISTRY ID" (columns diagnosis_data)
     ∧ has_column "REGISTRY ID" merged = true).
Proof.
  intros (Hm & _ & _)%merge_data_inr Hrp Hrd.
  pose proof Hm as (i & j & Hi & Hj & Hrows & Hcols)%merge_left_Some.
  assert (length (delete j (columns patient_data))
          = (length (columns patient_data) - 1)%nat) as Hdel.
  { apply length_delete, lookup_lt_is_Some. by eapply col_index_lt. }
  apply rectangular_Forall in Hrp, Hrd.
  split_and!.
  - apply rectangular_Forall. rewrite Hrows, Hcols.
    apply Forall_forall. intros r (l & Hl & Hr)%joined_elem.
    rewrite Forall_forall in Hrd.
    pose proof (join_row_widths i j (rows patient_data) _ l _ _ (Hrd l Hl) Hrp
                  (col_index_lt _ _ _ Hj) Hdel) as Hw.
    rewrite Forall_forall in Hw. by apply Hw.
  - by rewrite Hcols, Hdel.
  - intros Hnd.
    assert (col_index "REGISTRY ID" (columns merged) = Some i) as Hkey.
    { unfold merge_left in Hm. rewrite Hi, Hj in Hm. simpl in Hm.
      injection Hm as <-. cbn [columns].
      pose proof (not_elem_of_delete_index _ _ _ Hnd Hj) as Hout.
      apply col_index_fmap_app; [|intros c Hc|done].
      - rewrite (bool_decide_eq_false_2 (_ ∈ delete j _)) by done.
        by rewrite andb_false_r.
      - destruct (_ && _); [apply suffixed_is_no_identifier|done]. }
    split; [by rewrite Hkey, Hi|]. apply has_column_index. by rewrite Hkey.
Qed.

End JoinOutcomes.

Lemma merge_data_shape_witness :
  rectangular Sample.merged = true
  ∧ length (columns Sample.merged) = 4%nat
  ∧ has_column "REGISTRY ID" Sample.merged = true.
Proof.
  destruct (merge_data_shape Sample.patients Sample.diagnoses Sample.merged
              [InfoMergeCompleted 2 2]) as (H1 & H2 & H3); [reflexivity..|].
  split_and!; [exact H1|exact H2|].
  apply H3. apply (bool_decide_unpack _). reflexivity.
Defined.

Lemma match_report_without_suffix_witness :
  [InfoMergeCompleted 2 2]
  = [InfoMergeCompleted (len Sample.merged) (len Sample.diagnoses)].
Proof.
  apply (match_report_without_suffix Sample.patients Sample.diagnoses Sample.merged);
    reflexivity.
Defined.

(** ** The columns after normalisation *)

Section ColumnsAfter.

Import PyStr DataProcessor.

Variable repr_float : Q → string.
Variable parse_number : string → option Q.
Variable to_datetime : list cell → option (list cell).

Lemma normalize_age_plausible c : plausible_age (normalize_age parse_number c).
Proof.
  unfold plausible_age, normalize_age, clear_out_of_range, age_out_of_range.
  destruct (num_of_cell (to_numeric parse_number c)) as [x|] eqn:E.
  - destruct (negb (Qle_bool 0 x) || negb (Qle_bool x 150)) eqn:Hx; [by left|].
    right. exists x. split; [done|]. by apply in_range_iff.
  - left. destruct (to_numeric parse_number c) eqn:E'; try done.
    by apply to_numeric_not_text in E'.
Qed.

(** X6. After [_process_age_column] the column "AGE" holds the normalised
    cells of the selected column, in order: each of them is null or a number
    from 0 to 150, and the table has as many rows as before. *)
Theorem age_column_after_processing (df : DataFrame) (age_col : string) (vs : list cell) :
  rectangular df = true →
  select_age_column (columns df) = Some age_col →
  column age_col df = Some vs →
  ∃ df' log,
    process_age_column parse_number df = (inr df', log)
    ∧ column "AGE" df' = Some (normalize_age parse_number <$> vs)
    ∧ Forall plausible_age (normalize_age parse_number <$> vs)
    ∧ len df' = len df.
Proof.
  intros Hr Hsel Hvs. rewrite process_age_column_eq, Hsel by done.
  eexists _, _. split; [done|]. split_and!.
  - destruct (decide (age_col = "AGE")) as [->|Hne].
    + by rewrite rename_same, apply_column_same, Hvs.
    + apply select_age_column_elem in Hsel as (_ & _ & Hno).
      rewrite rename_column_new by (rewrite apply_column_columns; by apply Hno).
      by rewrite apply_column_same, Hvs.
  - apply Forall_fmap, Forall_true. intros c. apply normalize_age_plausible.
  - by rewrite rename_len, apply_column_len.
Qed.

Lemma col_index_rename_first (P : string → bool) cols g new :
  head (List.filter P cols) = Some g → P new = true →
  col_index new ((λ c, if String.eqb c g then new else c) <$> cols) = col_index g cols.
Proof.
  intros Hg Hnew. induction cols as [|c cs IH]; [done|].
  rewrite fmap_cons. cbn [col_index]. simpl in Hg.
  destruct (P c) eqn:Hc.
  - injection Hg as ->. by rewrite !String.eqb_refl.
  - destruct (String.eqb_spec c g) as [->|Hne].
    { apply head_filter_Some in Hg as [Hg _]. congruence. }
    destruct (String.eqb_spec c new) as [->|Hne']; [congruence|].
    by rewrite IH.
Qed.

Lemma normalize_gender_trimmed c :
  ∃ s, normalize_gender repr_float c = CStr s ∧ trimmed_upper s.
Proof.
  rewrite normalize_gender_text.
  destruct (gender_mapping !! _) as [g|] eqn:E; simpl.
  - exists g. split; [done|]. apply gender_mapping_values in E.
    rewrite !elem_of_cons, elem_of_nil in E.
    destruct_or!; subst; try done; by split.
  - eexists. split; [done|]. apply trimmed_upper_of.
Qed.

(** X7. After [_process_gender_column] the column "GENDER" holds the
    normalised cells of the first column whose label contains GENDER or SEX,
    in order, also when another column is labelled "GENDER" already; each of
    them is a trimmed text in upper case. *)
Theorem gender_column_after_processing (df : DataFrame) (gender_col : string)
    (vs : list cell) :
  rectangular df = true →
  head (List.filter is_gender_label (columns df)) = Some gender_col →
  column gender_col df = Some vs →
  ∃ df' log,
    process_gender_column repr_float df = (inr df', log)
    ∧ column "GENDER" df' = Some (normalize_gender repr_float <$> vs)
    ∧ Forall (λ c, ∃ s, c = CStr s ∧ trimmed_upper s)
             (normalize_gender repr_float <$> vs)
    ∧ len df' = len df.
Proof.
  intros Hr Hg Hvs. rewrite process_gender_column_eq, Hg by done.
  eexists _, _. split; [done|]. split_and!.
  - unfold column at 1. cbn [columns rename rows].
    rewrite apply_column_columns, (col_index_rename_first is_gender_label) by done.
    pose proof (apply_column_same gender_col (normalize_gender repr_float) df Hr) as H.
    rewrite Hvs in H. unfold column in H. rewrite apply_column_columns in H. done.
  - apply Forall_fmap, Forall_true. intros c. apply normalize_gender_trimmed.
  - by rewrite rename_len, apply_column_len.
Qed.

Lemma foldl_apply_twice (f1 f2 : cell → cell) names df :
  NoDup names → rectangular df = true →
  let df' := foldl (λ d c, apply_column c f2 (apply_column c f1 d)) df names in
  columns df' = columns df
  ∧ rectangular df' = true
  ∧ len df' = len df
  ∧ ∀ c, column c df'
         = if bool_decide (c ∈ names)
           then (λ vs : list cell, f2 ∘ f1 <$> vs) <$> column c df
           else column c df.
Proof.
  intros Hnd. revert df. induction Hnd as [|n ns Hn Hnd IH]; intros df Hr; simpl.
  - split_and!; try done.
  - rewrite apply_column_compose by done.
    destruct (IH (apply_column n (f2 ∘ f1) df)) as (H1 & H2 & H3 & H4).
    { by apply apply_column_rectangular. }
    split_and!.
    + by rewrite H1, apply_column_columns.
    + done.
    + by rewrite H3, apply_column_len.
    + intros c. rewrite H4. destruct (decide (c = n)) as [->|Hne].
      * rewrite bool_decide_eq_false_2 by done.
        rewrite bool_decide_eq_true_2 by apply list_elem_of_here.
        by apply apply_column_same.
      * rewrite apply_column_other by done.
        destruct (decide (c ∈ ns)) as [Hin|Hout].
        { rewrite !bool_decide_eq_true_2; [done| |done].
          by apply list_elem_of_further. }
        { rewrite !bool_decide_eq_false_2; [done| |done].
          by intros [?|?]%elem_of_cons. }
Qed.

Lemma NoDup_list_filter {A} (P : A → bool) (l : list A) :
  NoDup l → NoDup (List.filter P l).
Proof.
  induction 1 as [|x l Hx Hl IH]; simpl; [constructor|].
  destruct (P x); [|done]. constructor; [|done].
  by intros [? _]%filter_elem.
Qed.

Lemma normalize_diagnosis_cases c :
  normalize_diagnosis repr_float c = CNull
  ∨ ∃ s, normalize_diagnosis repr_float c = CStr s ∧ trimmed_upper s ∧ s ≠ "NAN".
Proof.
  unfold normalize_diagnosis, nan_text_to_null, astype_str. simpl.
  destruct (String.eqb_spec (upper (strip (py_str repr_float c))) "NAN") as [E|E].
  - by left.
  - right. eexists. split; [done|]. split; [apply trimmed_upper_of|done].
Qed.

(** X8. [_process_diagnosis_columns] on a rectangular table with distinct
    labels rewrites every column whose label contains DIAGNOSIS or CONDITION
    cell by cell, and leaves the other columns, the labels and the number of
    rows alone.  A cell becomes its trimmed, upper-cased text, or null when
    that text is "NAN": a null stays null, and so do texts such as "nan".
    Processing is idempotent on cells. *)
Theorem diagnosis_columns_after_processing (df : DataFrame) :
  rectangular df = true →
  NoDup (columns df) →
  let df' := process_diagnosis_columns repr_float df in
  columns df' = columns df
  ∧ len df' = len df
  ∧ (∀ col, is_diagnosis_label col = true →
       column col df'
       = (λ vs : list cell, normalize_diagnosis repr_float <$> vs) <$> column col df)
  ∧ (∀ col, is_diagnosis_label col = false → column col df' = column col df)
  ∧ normalize_diagnosis repr_float CNull = CNull
  ∧ (∀ c, normalize_diagnosis repr_float c = CNull
          ∨ ∃ s, normalize_diagnosis repr_float c = CStr s ∧ trimmed_upper s ∧ s ≠ "NAN")
  ∧ (∀ c, normalize_diagnosis repr_float (normalize_diagnosis repr_float c)
          = normalize_diagnosis repr_float c).
Proof.
  intros Hr Hnd df'.
  destruct (foldl_apply_twice (λ c, str_upper (str_strip (astype_str repr_float c)))
              nan_text_to_null (List.filter is_diagnosis_label (columns df)) df)
    as (H1 & _ & H3 & H4); [by apply NoDup_list_filter|done|].
  split_and!; try done.
  - intros col Hcol. unfold df', process_diagnosis_columns. fold is_diagnosis_label.
    rewrite H4. case_bool_decide as Hin; [done|].
    assert (col ∉ columns df) as Hout.
    { intros Hc. apply Hin. by apply filter_elem. }
    apply col_index_None in Hout. unfold column. by rewrite Hout.
  - intros col Hcol. unfold df', process_diagnosis_columns. fold is_diagnosis_label.
    rewrite H4. rewrite bool_decide_eq_false_2; [done|].
    intros [_ H]%filter_elem. congruence.
  - apply normalize_diagnosis_cases.
  - intros c. destruct (normalize_diagnosis_cases c) as [->|(s & -> & [Hs Hu] & Hn)];
      [done|].
    unfold normalize_diagnosis, nan_text_to_null, astype_str. simpl.
    rewrite Hs, Hu. by destruct (String.eqb_spec s "NAN").
Qed.

(** X9. [_process_date_columns] keeps the labels and the number of rows,
    and changes no column whose label contains none of the date words; when
    [pd.to_datetime] raises on every column the table is returned as it
    is. *)
Theorem date_columns_after_processing (df : DataFrame) :
  let df' := process_date_columns to_datetime df in
  columns df' = columns df
  ∧ len df' = len df
  ∧ (rectangular df = true → rectangular df' = true)
  ∧ (∀ col, is_date_label col = false → column col df' = column col df)
  ∧ ((∀ col vs, col ∈ columns df → is_date_label col = true →
        column col df = Some vs → to_datetime vs = None) → df' = df).
Proof.
  intros df'. subst df'. unfold process_date_columns. fold is_date_label.
  split_and!.
  - apply (foldl_invariant (λ d, columns d = columns df)); [done|].
    intros d col _ Hd. destruct (column col d); [|done].
    destruct (to_datetime l); [|done]. by rewrite set_column_columns.
  - apply (foldl_invariant (λ d, len d = len df)); [done|].
    intros d col _ Hd. destruct (column col d); [|done].
    destruct (to_datetime l); [|done]. by rewrite set_column_len.
  - intros Hr. apply (foldl_invariant (λ d, rectangular d = true)); [done|].
    intros d col _ Hd. destruct (column col d); [|done].
    destruct (to_datetime l); [|done]. by apply set_column_rectangular.
  - intros col Hcol.
    apply (foldl_invariant (λ d, column col d = column col df)); [done|].
    intros d c [_ Hc]%filter_elem Hd. destruct (column c d); [|done].
    destruct (to_datetime l); [|done]. rewrite set_column_other; [done|].
    intros ->. congruence.
  - intros Hraise.
    apply (foldl_invariant (λ d, d = df)); [done|].
    intros d c [Hin Hc]%filter_elem ->.
    destruct (column c df) as [vs|] eqn:E; [|done].
    by rewrite (Hraise c vs).
Qed.

End ColumnsAfter.

Lemma age_column_after_processing_witness :
  ∃ df' log,
    DataProcessor.process_age_column Sample.parse_digits
      (mkFrame ["REGISTRY ID"; "PATIENT AGE"] [[CStr "A1"; CStr "34"]; [CStr "B2"; CInt 212]])
    = (inr df', log)
    ∧ column "AGE" df' = Some [CFloat 34; CNull].
Proof.
  destruct (age_column_after_processing Sample.parse_digits
              (mkFrame ["REGISTRY ID"; "PATIENT AGE"]
                       [[CStr "A1"; CStr "34"]; [CStr "B2"; CInt 212]])
              "PATIENT AGE" [CStr "34"; CInt 212])
    as (df' & log & Hrun & Hcol & _); [reflexivity..|].
  exists df', log. split; [exact Hrun|exact Hcol].
Defined.

Lemma gender_column_after_processing_witness :
  ∃ df' log,
    DataProcessor.process_gender_column Sample.repr_not_needed
      (mkFrame ["SEX"; "GENDER"] [[CInt 1; CStr "x"]; [CStr " f"; CStr "y"]])
    = (inr df', log)
    ∧ column "GENDER" df' = Some [CStr "MALE"; CStr "FEMALE"].
Proof.
  destruct (gender_column_after_processing Sample.repr_not_needed
              (mkFrame ["SEX"; "GENDER"] [[CInt 1; CStr "x"]; [CStr " f"; CStr "y"]])
              "SEX" [CInt 1; CStr " f"])
    as (df' & log & Hrun & Hcol & _); [reflexivity..|].
  exists df', log. split; [exact Hrun|exact Hcol].
Defined.

Lemma diagnosis_columns_after_processing_witness :
  column "DIAGNOSIS"
    (DataProcessor.process_diagnosis_columns Sample.repr_not_needed
       (mkFrame ["REGISTRY ID"; "DIAGNOSIS"] [[CStr "A1"; CStr " flu "]; [CStr "B2"; CNull]]))
  = Some [CStr "FLU"; CNull].
Proof.
  destruct (diagnosis_columns_after_processing Sample.repr_not_needed
              (mkFrame ["REGISTRY ID"; "DIAGNOSIS"]
                       [[CStr "A1"; CStr " flu "]; [CStr "B2"; CNull]]))
    as (_ & _ & H & _).
  - reflexivity.
  - apply (bool_decide_unpack _). reflexivity.
  - exact (H "DIAGNOSIS" eq_refl).
Defined.

Lemma date_columns_after_processing_witness :
  DataProcessor.process_date_columns Sample.dates_untouched Sample.diagnoses
  = Sample.diagnoses.
Proof.
  apply (date_columns_after_processing Sample.dates_untouched Sample.diagnoses).
  reflexivity.
Defined.

(** ** The pipeline as a whole *)

Section Pipeline.

Import PyStr DataProcessor.

Variable repr_float : Q → string.
Variable parse_number : string → option Q.
Variable to_datetime : list cell → option (list cell).

Local Abbreviation process := (process_excel_file repr_float parse_number to_datetime).
Local Abbreviation validate_patient :=
  (validate_patient_data repr_float parse_number to_datetime).
Local Abbreviation validate_diagnosis := (validate_diagnosis_data repr_float to_datetime).

Lemma read_excel_elem (wb : workbook) name :
  name ∈ wb.*1 → ∃ sh, read_excel wb name = Some sh ∧ (name, sh) ∈ wb.
Proof.
  unfold read_excel. induction wb as [|[n sh] wb IH]; [by intros ?%elem_of_nil|].
  rewrite fmap_cons. simpl. destruct (String.eqb_spec n name) as [->|Hne].
  - intros _. exists sh. split; [done|]. apply list_elem_of_here.
  - intros [?|Hin]%elem_of_cons; [congruence|].
    destruct (IH Hin) as (sh' & H1 & H2). exists sh'. split; [done|].
    by apply list_elem_of_further.
Qed.

Lemma find_sheet_elem names keywords s :
  find_sheet names keywords = Some s → s ∈ names.
Proof.
  intros (b & a & -> & _)%find_sheet_some. apply elem_of_app. right.
  apply list_elem_of_here.
Qed.

(** Either a sheet is missing, or the two sheets are read and the rest of
    the pipeline runs on them. *)
Lemma process_excel_file_steps (wb : workbook) :
  process wb = (inl (ErrorProcessingExcelFile PatientSheetNotFound), [])
  ∨ process wb = (inl (ErrorProcessingExcelFile DiagnosisSheetNotFound), [])
  ∨ ∃ ps ds sp sd,
      (ps, sp) ∈ wb ∧ (ds, sd) ∈ wb
      ∧ process wb
        = try_except
            (let* p := validate_patient (clean_dataframe sp) in
             let* d := validate_diagnosis (clean_dataframe sd) in
             let* m := merge_data p d in
             ret (p, d, m))
            ErrorProcessingExcelFile.
Proof.
  destruct (find_sheet wb.*1 patient_keywords) as [ps|] eqn:Hp;
    [|left; by apply no_patient_sheet].
  destruct (find_sheet wb.*1 diagnosis_keywords) as [ds|] eqn:Hd;
    [|right; left; apply no_diagnosis_sheet; [by rewrite Hp|done]].
  right. right.
  destruct (read_excel_elem wb ps (find_sheet_elem _ _ _ Hp)) as (sp & Hrp & Hinp).
  destruct (read_excel_elem wb ds (find_sheet_elem _ _ _ Hd)) as (sd & Hrd & Hind).
  exists ps, ds, sp, sd. split_and!; [done..|].
  unfold process_excel_file. rewrite Hp, Hd.
  rewrite (found_sheet_truthy _ patient_keywords ps) by first [done | by repeat constructor].
  rewrite (found_sheet_truthy _ diagnosis_keywords ds) by first [done | by repeat constructor].
  simpl. by rewrite Hrp, Hrd.
Qed.

Lemma validate_patient_data_result df :
  rectangular df = true → NoDup (columns df) →
  has_column "REGISTRY ID" df = true →
  ∃ df' log,
    validate_patient df = (inr df', log)
    ∧ rectangular df' = true
    ∧ ids df' = astype_str repr_float <$> List.filter notna (ids df)
    ∧ len df' = length (List.filter notna (ids df)).
Proof.
  intros Hr Hnd Hid.
  set (d1 := dropna_subset ["REGISTRY ID"] df).
  set (d2 := apply_column "REGISTRY ID" (astype_str repr_float) d1).
  assert (rectangular d1 = true) as Hr1 by by apply dropna_subset_rectangular.
  assert (rectangular d2 = true) as Hr2 by by apply apply_column_rectangular.
  assert (ids d2 = astype_str repr_float <$> List.filter notna (ids df)) as Hids.
  { unfold d2. rewrite ids_apply_astype by done. unfold d1.
    by rewrite dropna_subset_ids. }
  assert (len d2 = length (List.filter notna (ids df))) as Hlen.
  { rewrite <- (length_fmap (astype_str repr_float)), <- Hids. symmetry.
    apply ids_length, has_column_true. unfold d2.
    rewrite apply_column_columns. simpl. by apply has_column_true. }
  unfold validate_patient_data. rewrite Hid. simpl. fold d1. fold d2.
  destruct (process_age_column_keeps_ids parse_number d2 Hr2)
    as (d3 & l3 & -> & Hr3 & Hl3 & Hi3).
  destruct (process_gender_column_keeps_ids repr_float d3 Hr3)
    as (d4 & l4 & E4 & Hr4 & Hl4 & Hi4).
  destruct (process_date_columns_keeps_ids to_datetime d4 Hr4) as (Hr5 & Hl5 & Hi5).
  simpl. rewrite E4. simpl. eexists _, _. split; [done|]. split_and!; congruence.
Qed.

Lemma validate_diagnosis_data_result df :
  rectangular df = true → NoDup (columns df) →
  has_column "REGISTRY ID" df = true →
  ∃ df',
    validate_diagnosis df = (inr df', [])
    ∧ rectangular df' = true
    ∧ ids df' = astype_str repr_float <$> List.filter notna (ids df)
    ∧ len df' = length (List.filter notna (ids df)).
Proof.
  intros Hr Hnd Hid.
  set (d1 := dropna_subset ["REGISTRY ID"] df).
  set (d2 := apply_column "REGISTRY ID" (astype_str repr_float) d1).
  assert (rectangular d1 = true) as Hr1 by by apply dropna_subset_rectangular.
  assert (rectangular d2 = true) as Hr2 by by apply apply_column_rectangular.
  assert (ids d2 = astype_str repr_float <$> List.filter notna (ids df)) as Hids.
  { unfold d2. rewrite ids_apply_astype by done. unfold d1.
    by rewrite dropna_subset_ids. }
  assert (len d2 = length (List.filter notna (ids df))) as Hlen.
  { rewrite <- (length_fmap (astype_str repr_float)), <- Hids. symmetry.
    apply ids_length, has_column_true. unfold d2.
    rewrite apply_column_columns. simpl. by apply has_column_true. }
  unfold validate_diagnosis_data. rewrite Hid. simpl. fold d1. fold d2.
  destruct (process_date_columns_keeps_ids to_datetime d2 Hr2) as (Hr3 & Hl3 & Hi3).
  destruct (process_diagnosis_columns_keeps_ids repr_float _ Hr3) as (Hr4 & Hl4 & Hi4).
  eexists. split; [done|]. split_and!; congruence.
Qed.

(** The identifier column of a cleaned sheet has a cell that is not null. *)
Lemma clean_dataframe_has_identifier df :
  has_column "REGISTRY ID" (clean_dataframe df) = true →
  List.filter notna (ids (clean_dataframe df)) ≠ [].
Proof.
  intros [i Hi]%has_column_index. rewrite (ids_column _ _ Hi).
  pose proof (clean_dataframe_column_not_all_null df i (col_index_lt _ _ _ Hi)) as H.
  apply existsb_elem in H as (r & Hr & Hn). intros E.
  assert (cell_at i r ∈ List.filter notna (cell_at i <$> rows (clean_dataframe df)))
    as Hin.
  { apply filter_elem. split; [|done]. apply list_elem_of_fmap. eauto. }
  rewrite E in Hin. by apply elem_of_nil in Hin.
Qed.

Lemma well_formed_sheet wb name sh :
  well_formed_book wb → (name, sh) ∈ wb →
  rectangular (clean_dataframe sh) = true ∧ NoDup (columns (clean_dataframe sh)).
Proof.
  intros Hwf Hin. unfold well_formed_book in Hwf. rewrite Forall_forall in Hwf.
  destruct (Hwf _ Hin) as [Hr Hnd]. split; [|done]. by apply clean_dataframe_rectangular.
Qed.

(** The tables of a run that succeeds on a well-formed workbook. *)
Lemma process_excel_file_result (wb : workbook) (p d m : DataFrame) log :
  well_formed_book wb →
  process wb = (inr (p, d, m), log) →
  (∃ log', merge_data p d = (inr m, log'))
  ∧ rectangular p = true ∧ rectangular d = true
  ∧ Forall (λ c, App.is_text c = true) (ids p)
  ∧ Forall (λ c, App.is_text c = true) (ids d)
  ∧ length (ids p) = len p ∧ length (ids d) = len d
  ∧ (1 ≤ len p)%nat ∧ (1 ≤ len d)%nat ∧ (len d ≤ len m)%nat.
Proof.
  intros Hwf Hrun.
  destruct (process_excel_file_steps wb)
    as [E|[E|(ps & ds & sp & sd & Hinp & Hind & E)]]; rewrite E in Hrun; [done..|].
  clear E.
  destruct (well_formed_sheet _ _ _ Hwf Hinp) as [Hrp Hndp].
  destruct (well_formed_sheet _ _ _ Hwf Hind) as [Hrd Hndd].
  destruct (has_column "REGISTRY ID" (clean_dataframe sp)) eqn:Hidp.
  2:{ unfold validate_patient_data in Hrun. by rewrite Hidp in Hrun. }
  destruct (validate_patient_data_result _ Hrp Hndp Hidp)
    as (p' & l1 & Ep & Hrp' & Hip & Hlp).
  rewrite Ep in Hrun. simpl in Hrun.
  destruct (has_column "REGISTRY ID" (clean_dataframe sd)) eqn:Hidd.
  2:{ unfold validate_diagnosis_data in Hrun. by rewrite Hidd in Hrun. }
  destruct (validate_diagnosis_data_result _ Hrd Hndd Hidd)
    as (d' & Ed & Hrd' & Hid & Hld).
  rewrite Ed in Hrun. simpl in Hrun.
  destruct (merge_data p' d') as [[e|m'] l3] eqn:Em; simpl in Hrun; [done|].
  injection Hrun as <- <- <- <-.
  pose proof (clean_dataframe_has_identifier sp Hidp) as Hnp.
  pose proof (clean_dataframe_has_identifier sd Hidd) as Hnd.
  split_and!.
  - eauto.
  - done.
  - done.
  - rewrite Hip. apply Forall_fmap, Forall_true. done.
  - rewrite Hid. apply Forall_fmap, Forall_true. done.
  - by rewrite Hip, length_fmap.
  - by rewrite Hid, length_fmap.
  - rewrite Hlp. destruct (List.filter notna (ids (clean_dataframe sp))); [done|].
    simpl. lia.
  - rewrite Hld. destruct (List.filter notna (ids (clean_dataframe sd))); [done|].
    simpl. lia.
  - apply merge_data_inr in Em as (Hm & _ & _).
    apply merge_left_Some in Hm as (i & j & _ & _ & Hrows & _).
    unfold len. rewrite Hrows. apply joined_length.
Qed.

(** X10. In a run that succeeds on a workbook of rectangular sheets whose
    cleaned labels are distinct, the merged table is the merge of the two
    validated tables; each of the two has at least one row, an identifier in
    every row, and only texts as identifiers; and the merged table has at
    least as many rows as the diagnosis table. *)
Theorem pipeline_outputs (wb : workbook) (p d m : DataFrame) log :
  well_formed_book wb →
  process wb = (inr (p, d, m), log) →
  (∃ log', merge_data p d = (inr m, log'))
  ∧ rectangular p = true ∧ rectangular d = true
  ∧ Forall (λ c, App.is_text c = true) (ids p)
  ∧ Forall (λ c, App.is_text c = true) (ids d)
  ∧ length (ids p) = len p ∧ length (ids d) = len d
  ∧ (1 ≤ len p)%nat ∧ (1 ≤ len d)%nat ∧ (len d ≤ len m)%nat.
Proof. apply process_excel_file_result. Qed.

(** X11. On such a workbook [process_excel_file] never raises the error
    "No matching records found": a validated diagnosis table has a row, and
    the left join then has one. *)
Theorem pipeline_never_reports_empty_join (wb : workbook) log :
  well_formed_book wb →
  process wb ≠ (inl (ErrorProcessingExcelFile (ErrorMergingData NoMatchingRecords)), log).
Proof.
  intros Hwf Hrun.
  destruct (process_excel_file_steps wb)
    as [E|[E|(ps & ds & sp & sd & Hinp & Hind & E)]]; rewrite E in Hrun; [done..|].
  clear E.
  destruct (well_formed_sheet _ _ _ Hwf Hinp) as [Hrp Hndp].
  destruct (well_formed_sheet _ _ _ Hwf Hind) as [Hrd Hndd].
  destruct (has_column "REGISTRY ID" (clean_dataframe sp)) eqn:Hidp.
  2:{ unfold validate_patient_data in Hrun. by rewrite Hidp in Hrun. }
  destruct (validate_patient_data_result _ Hrp Hndp Hidp)
    as (p' & l1 & Ep & Hrp' & Hip & Hlp).
  rewrite Ep in Hrun. simpl in Hrun.
  destruct (has_column "REGISTRY ID" (clean_dataframe sd)) eqn:Hidd.
  2:{ unfold validate_diagnosis_data in Hrun. by rewrite Hidd in Hrun. }
  destruct (validate_diagnosis_data_result _ Hrd Hndd Hidd)
    as (d' & Ed & Hrd' & Hid & Hld).
  rewrite Ed in Hrun. simpl in Hrun.
  pose proof (clean_dataframe_has_identifier sd Hidd) as Hnd.
  destruct (merge_data_cases p' d')
    as [[_ Em]|(_ & _ & [[He Em]|(_ & m' & k & Em)])];
    rewrite Em in Hrun; simpl in Hrun; try done.
  unfold len in Hld. rewrite He in Hld.
  destruct (List.filter notna (ids (clean_dataframe sd))); done.
Qed.

(** X12. When the two sheets are found and the cleaned patient sheet has no
    label containing REGISTRY or ID, the run fails with the error of the
    missing identifier column of the patient data and sends no message;
    the same holds for the diagnosis sheet once the patient sheet has passed,
    the messages of the patient sheet having been sent by then. *)
Theorem pipeline_missing_identifier (wb : workbook) (ps ds : string) (sp sd : DataFrame) :
  find_sheet wb.*1 patient_keywords = Some ps →
  find_sheet wb.*1 diagnosis_keywords = Some ds →
  read_excel wb ps = Some sp →
  read_excel wb ds = Some sd →
  (existsb is_registry_label (columns (clean_dataframe sp)) = false →
   process wb = (inl (ErrorProcessingExcelFile PatientMissingRegistryId), []))
  ∧ (∀ p l, validate_patient (clean_dataframe sp) = (inr p, l) →
       existsb is_registry_label (columns (clean_dataframe sd)) = false →
       process wb = (inl (ErrorProcessingExcelFile DiagnosisMissingRegistryId), l)).
Proof.
  intros Hp Hd Hrp Hrd.
  assert (process wb
          = try_except
              (let* p := validate_patient (clean_dataframe sp) in
               let* d := validate_diagnosis (clean_dataframe sd) in
               let* m := merge_data p d in
               ret (p, d, m))
              ErrorProcessingExcelFile) as ->.
  { unfold process_excel_file. rewrite Hp, Hd.
    rewrite (found_sheet_truthy _ patient_keywords ps) by first [done | by repeat constructor].
    rewrite (found_sheet_truthy _ diagnosis_keywords ds) by first [done | by repeat constructor].
    simpl. by rewrite Hrp, Hrd. }
  split.
  - intros Hno. unfold validate_patient_data at 1.
    pose proof (clean_dataframe_columns sp) as Hc.
    assert (has_column "REGISTRY ID" (clean_dataframe sp) = false) as ->; [|done].
    apply not_true_iff_false. intros Hid%has_column_true.
    apply not_true_iff_false in Hno. apply Hno, existsb_elem. eauto.
  - intros p l Ep Hno. rewrite Ep. simpl. unfold validate_diagnosis_data.
    assert (has_column "REGISTRY ID" (clean_dataframe sd) = false) as ->.
    { apply not_true_iff_false. intros Hid%has_column_true.
      apply not_true_iff_false in Hno. apply Hno, existsb_elem. eauto. }
    simpl. by rewrite app_nil_r.
Qed.

End Pipeline.

Lemma well_formed_sample_book : well_formed_book Sample.book.
Proof.
  repeat (constructor;
          [split; [reflexivity|apply (bool_decide_unpack _); reflexivity]|]).
  constructor.
Qed.

Lemma pipeline_outputs_witness :
  (len Sample.diagnoses ≤ len Sample.merged)%nat
  ∧ Forall (λ c, App.is_text c = true) (ids Sample.patients).
Proof.
  destruct (pipeline_outputs Sample.repr_not_needed Sample.parse_digits
              Sample.dates_untouched Sample.book Sample.patients Sample.diagnoses
              Sample.merged
              [InfoAgeColumn; InfoGenderMapping [(CStr "MALE", 1%nat)];
               InfoGenderColumnRenamed "SEX"; InfoMergeCompleted 2 2])
    as (_ & _ & _ & H1 & _ & _ & _ & _ & _ & H2).
  - apply well_formed_sample_book.
  - reflexivity.
  - split; [exact H2|exact H1].
Defined.

Lemma pipeline_never_reports_empty_join_witness :
  Sample.process Sample.book
  ≠ (inl (ErrorProcessingExcelFile (ErrorMergingData NoMatchingRecords)), []).
Proof.
  apply (pipeline_never_reports_empty_join Sample.repr_not_needed Sample.parse_digits
           Sample.dates_untouched Sample.book []).
  apply well_formed_sample_book.
Defined.

Lemma pipeline_missing_identifier_witness :
  Sample.process
    [("patients", mkFrame ["Name"; "Age"] [[CStr "Ann"; CInt 30]]);
     ("diagnoses", Sample.diagnosis_sheet)]
  = (inl (ErrorProcessingExcelFile PatientMissingRegistryId), []).
Proof.
  destruct (pipeline_missing_identifier Sample.repr_not_needed Sample.parse_digits
              Sample.dates_untouched
              [("patients", mkFrame ["Name"; "Age"] [[CStr "Ann"; CInt 30]]);
               ("diagnoses", Sample.diagnosis_sheet)]
              "patients" "diagnoses"
              (mkFrame ["Name"; "Age"] [[CStr "Ann"; CInt 30]]) Sample.diagnosis_sheet)
    as [H _]; [reflexivity..|].
  apply H. reflexivity.
Defined.

(** ** Text, date and age helpers *)

Section Helpers.

Import PyStr UtilsMore.

Variable repr_float : Q → string.
Variable parse_int : string → option Z.

Lemma clean_text_column_lookup series i :
  clean_text_column repr_float series !! i
  = (λ c, if bool_decide (DataProcessor.py_str repr_float c ∈ null_spellings)
          then CNull
          else CStr (upper (strip (DataProcessor.py_str repr_float c))))
      <$> series !! i.
Proof.
  unfold clean_text_column. rewrite !list_lookup_fmap.
  destruct (series !! i) as [c|]; [|done]. simpl. f_equal.
  unfold DataProcessor.astype_str, replace_with_null. fold null_spellings.
  by case_bool_decide.
Qed.

(** X15. [clean_text_column] keeps the length of the series; a cell
    becomes null exactly when its text is one of nan, NaN, NULL, null or the
    empty text, spelled so before trimming (a null cell, whose text is nan,
    stays null); every other cell becomes its trimmed, upper-cased text. *)
Theorem clean_text_column_cells (series : list cell) :
  let out := clean_text_column repr_float series in
  length out = length series
  ∧ (∀ i c, series !! i = Some c →
       ((DataProcessor.py_str repr_float c ∈ null_spellings) ∧ out !! i = Some CNull)
       ∨ ((DataProcessor.py_str repr_float c ∉ null_spellings)
          ∧ out !! i = Some (CStr (upper (strip (DataProcessor.py_str repr_float c))))))
  ∧ (∀ i, series !! i = Some CNull → out !! i = Some CNull)
  ∧ Forall (λ c, c = CNull ∨ ∃ s, c = CStr s ∧ trimmed_upper s) out.
Proof.
  intros out. subst out. split_and!.
  - unfold clean_text_column. by rewrite !length_fmap.
  - intros i c Hc. rewrite clean_text_column_lookup, Hc. simpl.
    case_bool_decide; [by left|by right].
  - intros i Hc. by rewrite clean_text_column_lookup, Hc.
  - apply Forall_lookup. intros i c. rewrite clean_text_column_lookup.
    destruct (series !! i) as [x|]; [|done]. simpl. intros [= <-].
    case_bool_decide; [by left|]. right. eexists. split; [done|].
    apply trimmed_upper_of.
Qed.

Lemma is_date_like_from_existsb patterns value :
  is_date_like_from patterns value = existsb (λ p, re_match p (strip value)) patterns.
Proof.
  induction patterns as [|p ps IH]; [done|]. simpl. rewrite IH.
  by destruct (re_match p (strip value)).
Qed.

Lemma re_match_app pattern s u :
  re_match pattern s = true → re_match pattern (s +:+ u) = true.
Proof.
  revert s. induction pattern as [|item rest IH]; intros s; [done|].
  destruct s as [|c r]; [done|]. simpl.
  intros [H1 H2]%andb_true_iff. by rewrite H1, IH.
Qed.

Lemma re_match_length pattern s :
  re_match pattern s = true → (length pattern ≤ String.length s)%nat.
Proof.
  revert s. induction pattern as [|item rest IH]; intros s; simpl; [lia|].
  destruct s as [|c r]; [done|]. intros [_ H]%andb_true_iff. apply IH in H.
  simpl. lia.
Qed.

Lemma is_digit_no_space c : is_digit c = true → isspace c = false.
Proof. destruct c as [[] [] [] [] [] [] [] []]; by intros H. Qed.

Lemma date_pattern_first_char p s :
  p ∈ date_patterns → re_match p s = true →
  ∃ c r, s = String c r ∧ isspace c = false.
Proof.
  unfold date_patterns. rewrite !elem_of_cons, elem_of_nil.
  intros Hp Hm. destruct s as [|c r]; [by destruct_or!; subst|].
  exists c, r. split; [done|]. apply is_digit_no_space.
  destruct_or!; subst; try done; simpl in Hm; by apply andb_true_iff in Hm as [? _].
Qed.

Lemma rstrip_app t u :
  rstrip (t +:+ u) = if is_empty (rstrip u) then rstrip t else t +:+ rstrip u.
Proof.
  induction t as [|c t IH].
  - change ("" +:+ u) with u. change ("" +:+ rstrip u) with (rstrip u).
    by destruct (rstrip u).
  - change (String c t +:+ u) with (String c (t +:+ u)). simpl. rewrite IH.
    destruct (is_empty (rstrip u)) eqn:E; [done|].
    assert (is_empty (t +:+ rstrip u) = false) as ->; [|by rewrite andb_false_r].
    destruct t as [|d t]; [exact E|done].
Qed.

Lemma string_app_empty s : s +:+ "" = s.
Proof.
  induction s as [|a s IH]; [done|].
  change (String a s +:+ "") with (String a (s +:+ "")). by rewrite IH.
Qed.

Lemma rstrip_of_stripped t : strip t = t → rstrip t = t.
Proof.
  intros H. rewrite <- H at 1. unfold strip.
  by rewrite rstrip_lstrip, rstrip_idem.
Qed.

(** X16. A text is date-like when, blanks around it removed, it starts
    with one of the four shapes of digits and separators, so it has ten
    characters at least; what follows the shape is not looked at: a trimmed
    date-like text stays date-like whatever is appended to it. *)
Theorem is_date_like_prefix (value : string) :
  is_date_like value = is_date_like (strip value)
  ∧ (is_date_like value = true →
     (10 ≤ String.length (strip value))%nat
     ∧ ∃ p, p ∈ date_patterns ∧ re_match p (strip value) = true)
  ∧ (strip value = value → is_date_like value = true →
     ∀ rest, is_date_like (value +:+ rest) = true).
Proof.
  unfold is_date_like. rewrite !is_date_like_from_existsb, strip_idem.
  split_and!; [done| |].
  - intros (p & Hp & Hm)%existsb_elem. split; [|eauto].
    apply re_match_length in Hm. revert Hp Hm. unfold date_patterns.
    rewrite !elem_of_cons, elem_of_nil. intros Hp. destruct_or!; subst; simpl; done.
  - intros Hs (p & Hp & Hm)%existsb_elem rest. rewrite Hs in Hm.
    rewrite is_date_like_from_existsb. apply existsb_elem. exists p. split; [done|].
    destruct (date_pattern_first_char p value Hp Hm) as (c & r & -> & Hc).
    assert (∃ u, strip (String c r +:+ rest) = String c r +:+ u) as [u ->].
    { unfold strip. rewrite rstrip_app, (rstrip_of_stripped _ Hs).
      destruct (is_empty (rstrip rest)).
      - exists "". rewrite string_app_empty. simpl. by rewrite Hc.
      - exists (rstrip rest).
        change (String c r +:+ rstrip rest) with (String c (r +:+ rstrip rest)).
        simpl. by rewrite Hc. }
    by apply re_match_app.
Qed.

Local Abbreviation rename_step :=
  (λ (df_copy : DataFrame) (names : string * string),
     if has_column names.1 df_copy && negb (has_column names.2 df_copy)
     then rename names.1 names.2 df_copy
     else df_copy).

Lemma rename_labels_NoDup old new cols :
  NoDup cols → new ∉ cols →
  NoDup ((λ c, if String.eqb c old then new else c) <$> cols).
Proof.
  intros Hnd Hnew. induction Hnd as [|c cs Hc Hnd IH]; [constructor|].
  apply not_elem_of_cons in Hnew as [Hne Hnew]. rewrite fmap_cons.
  constructor; [|by apply IH].
  intros (x & Hx & Hin)%list_elem_of_fmap.
  destruct (String.eqb_spec c old), (String.eqb_spec x old); subst;
    first [done | congruence].
Qed.

Lemma rename_label_kept old new (cols : list string) c :
  c ≠ old → c ∈ cols → c ∈ (λ c, if String.eqb c old then new else c) <$> cols.
Proof.
  intros Hne Hin. apply list_elem_of_fmap. exists c. split; [|done].
  by destruct (String.eqb_spec c old).
Qed.

Lemma rename_label_new old new (cols : list string) :
  old ∈ cols → new ∈ (λ c, if String.eqb c old then new else c) <$> cols.
Proof.
  intros Hin. apply list_elem_of_fmap. exists old. by rewrite String.eqb_refl.
Qed.

Lemma rename_steps_keep (mappings : list (string * string)) df c :
  c ∉ mappings.*1 → c ∈ columns df → c ∈ columns (foldl rename_step df mappings).
Proof.
  revert df. induction mappings as [|[o n] ms IH]; intros df Hkey Hin; [done|].
  rewrite fmap_cons in Hkey. apply not_elem_of_cons in Hkey as [Hne Hkey]. simpl.
  apply IH; [done|]. destruct (_ && _); [|done]. simpl.
  by apply rename_label_kept.
Qed.

Lemma rename_steps_reach (mappings : list (string * string)) df old new :
  NoDup mappings.*1 → new ∉ mappings.*1 →
  (old, new) ∈ mappings → old ∈ columns df →
  new ∈ columns (foldl rename_step df mappings).
Proof.
  revert df. induction mappings as [|[o n] ms IH]; intros df Hnd Hnew Hin Hold;
    [by apply elem_of_nil in Hin|].
  rewrite fmap_cons in Hnd, Hnew. apply NoDup_cons in Hnd as [Ho Hnd].
  apply not_elem_of_cons in Hnew as [Hno Hnew]. simpl.
  apply elem_of_cons in Hin as [[= <- <-]|Hin].
  - apply rename_steps_keep; [done|].
    unfold has_column. rewrite (bool_decide_eq_true_2 _ Hold). simpl.
    case_bool_decide as Hn; simpl; [done|]. by apply rename_label_new.
  - apply IH; try done.
    assert (old ≠ o) as Hne.
    { intros ->. apply Ho. apply list_elem_of_fmap. by exists (o, new). }
    destruct (_ && _); [|done]. simpl. by apply rename_label_kept.
Qed.

(** X17. [standardize_column_names] leaves the rows alone and gives
    trimmed upper-case labels, as many as before; labels that were distinct
    once trimmed and upper-cased stay distinct, since a label is only
    replaced by a canonical name that is not there yet; and whenever a name
    of the mapping is among the labels, its canonical name is a label of the
    result. *)
Theorem standardize_column_names_labels (df : DataFrame) :
  let labels := (λ col, upper (strip col)) <$> columns df in
  rows (standardize_column_names df) = rows df
  ∧ length (columns (standardize_column_names df)) = length (columns df)
  ∧ Forall trimmed_upper (columns (standardize_column_names df))
  ∧ (NoDup labels → NoDup (columns (standardize_column_names df)))
  ∧ (∀ old new, (old, new) ∈ column_mappings → old ∈ labels →
       has_column new (standardize_column_names df) = true).
Proof.
  intros labels. unfold standardize_column_names. fold labels.
  split_and!.
  - apply (foldl_invariant (λ d, rows d = rows df)); [done|].
    intros d names _ Hd. by destruct (_ && _).
  - apply (foldl_invariant (λ d, length (columns d) = length (columns df))).
    { simpl. unfold labels. by rewrite length_fmap. }
    intros d names _ Hd. destruct (_ && _); [|done]. simpl. by rewrite length_fmap.
  - apply (foldl_invariant (λ d, Forall trimmed_upper (columns d))).
    { simpl. apply Forall_fmap, Forall_true. intros c. apply trimmed_upper_of. }
    intros d [o n] Hin Hd. destruct (_ && _); [|done]. simpl.
    assert (trimmed_upper n) as Hn.
    { revert Hin. unfold column_mappings. rewrite !elem_of_cons, elem_of_nil.
      intros H. destruct_or!; simplify_eq; try done; by split. }
    apply Forall_fmap. eapply Forall_impl; [exact Hd|]. simpl.
    intros c Hc. by destruct (String.eqb c o).
  - intros Hnd. apply (foldl_invariant (λ d, NoDup (columns d))); [done|].
    intros d [o n] _ Hd. cbn [fst snd].
    destruct (has_column o d); simpl; [|done].
    destruct (has_column n d) eqn:Hn; simpl; [done|].
    apply rename_labels_NoDup; [done|]. intros Hin%has_column_true. congruence.
  - intros old new Hin Hold. apply has_column_true.
    apply (rename_steps_reach _ _ old new); try done.
    + apply (bool_decide_unpack _). reflexivity.
    + revert Hin. unfold column_mappings. rewrite !elem_of_cons, elem_of_nil.
      intros H. destruct_or!; simplify_eq; try done;
        apply (bool_decide_unpack _); reflexivity.
Qed.

Local Abbreviation group_of := (categorize_age parse_int).

(** X18. The age group of a cell that is not null depends on its value
    cut to an integer [n]: from 1 to 90 it is the decade "10k+1-10k+10" that
    contains [n]; every [n] of 10 or less, zero and negative values
    included, gives "1-10"; every [n] above 90 gives "90+".  A null gives
    "Unknown", and a series without text gets one group per age. *)
Theorem categorize_age_decade (age : cell) (n : Z) :
  UtilsMore.py_int parse_int age = Some n →
  (n <= 10 → group_of age = Some "1-10")
  ∧ (90 < n → group_of age = Some "90+")
  ∧ (1 <= n <= 90 →
     group_of age
     = Some (pretty (10 * ((n - 1) / 10) + 1) +:+ "-" +:+ pretty (10 * ((n - 1) / 10) + 10)))
  ∧ group_of CNull = Some "Unknown"
  ∧ (∀ ages, Forall (λ c, App.is_text c = false) ages →
       ∃ groups, calculate_age_groups parse_int ages = Some groups
                 ∧ length groups = length ages).
Proof.
  intros Hn.
  assert (isna age = false) as Hna by by destruct age.
  unfold categorize_age. rewrite Hna, Hn. simpl. split_and!.
  - intros H. by rewrite (proj2 (Z.leb_le n 10)).
  - intros H. by rewrite !(proj2 (Z.leb_gt n _)) by lia.
  - intros H.
    pose proof (Z.div_mod (n - 1) 10 ltac:(lia)) as Hdm.
    pose proof (Z.mod_pos_bound (n - 1) 10 ltac:(lia)) as Hmod.
    set (k := (n - 1) / 10) in *.
    assert (k = 0 ∨ k = 1 ∨ k = 2 ∨ k = 3 ∨ k = 4 ∨ k = 5 ∨ k = 6 ∨ k = 7 ∨ k = 8)
      as Hk by lia.
    destruct_or!; rewrite Hk in *;
      repeat match goal with
             | |- context [n <=? ?m] => destruct (Z.leb_spec n m); try lia
             end; reflexivity.
  - done.
  - intros ages Hages. unfold calculate_age_groups.
    assert (is_Some (mapM (categorize_age parse_int) ages)) as [groups Hg].
    { apply mapM_is_Some. eapply Forall_impl; [exact Hages|]. simpl.
      intros c Hc. unfold categorize_age. destruct c; simpl; try done; by eexists. }
    exists groups. split; [done|]. symmetry. by eapply length_mapM.
Qed.

End Helpers.

Lemma is_date_like_prefix_witness :
  UtilsMore.is_date_like "9999-99-99 and more" = true.
Proof.
  destruct (is_date_like_prefix "9999-99-99") as (_ & _ & H).
  apply (H eq_refl eq_refl " and more").
Defined.

Lemma standardize_column_names_labels_witness :
  columns (UtilsMore.standardize_column_names
             (mkFrame ["patient_id "; "ID"; "sex"] [[CInt 1; CInt 2; CStr "F"]]))
  = ["REGISTRY ID"; "ID"; "GENDER"].
Proof.
  pose proof (standardize_column_names_labels
                (mkFrame ["patient_id "; "ID"; "sex"] [[CInt 1; CInt 2; CStr "F"]]))
    as (_ & _ & _ & Hnd & _).
  assert (NoDup (columns (UtilsMore.standardize_column_names
                 (mkFrame ["patient_id "; "ID"; "sex"] [[CInt 1; CInt 2; CStr "F"]]))))
    as _ by (apply Hnd; apply (bool_decide_unpack _); reflexivity).
  reflexivity.
Defined.

Lemma categorize_age_decade_witness :
  UtilsMore.categorize_age (λ _, None) (CFloat (109 # 10)) = Some "1-10"
  ∧ UtilsMore.categorize_age (λ _, None) (CInt 34) = Some "31-40".
Proof.
  split.
  - destruct (categorize_age_decade (λ _, None) (CFloat (109 # 10)) 10) as (H & _);
      [reflexivity|]. apply H. lia.
  - destruct (categorize_age_decade (λ _, None) (CInt 34) 34) as (_ & _ & H & _);
      [reflexivity|]. apply H. lia.
Defined.
